(** * VirtualPersona inference server: pipeline and streaming gateway

    A shallow embedding of [inference-server/pipeline.py] and of the request
    handlers of [inference-server/server.py], followed by the properties of
    the synthesis path, of reference handling and of the WebSocket handler.

    Python values are modelled with their dynamic types: a JSON number is an
    unbounded integer or a binary64 float (Rocq's primitive floats are
    binary64, so Python's float arithmetic is computed, not approximated).
    The entry points of OpenCV, ONNX Runtime and PIL are an interface
    ([Cv2], [session], [Codec]); a small executable instance is given at the
    end of the definitions so that the model can be run on concrete
    images.  A received text frame is given by what [json.loads] makes of
    it, and sending on an open connection succeeds. *)

From Stdlib Require Import ZArith List Bool String Ascii Lia.
From Stdlib Require Import PrimFloat SpecFloat FloatOps.
Import ListNotations.

Set Warnings "-inexact-float,-register-all".
Open Scope string_scope.
Open Scope list_scope.
Open Scope Z_scope.

(* ================================================================= *)
(** ** Python values, exceptions and operators *)

Module Py.

(** The exception classes the modelled code can meet; all of them derive
    from [Exception].  Only [ValueError] carries its message: it is the one
    the pipeline raises itself. *)
Inductive exn : Type :=
| ValueError (msg : string)
| TypeError
| IndexError
| KeyError
| AttributeError
| OverflowError
| JSONDecodeError
| CvError
| PILError
| WebSocketDisconnect.

Inductive res (A : Type) : Type :=
| Ok (a : A)
| Raise (e : exn).
Arguments Ok {A} a.
Arguments Raise {A} e.

Definition bind {A B : Type} (m : res A) (k : A -> res B) : res B :=
  match m with
  | Ok a => k a
  | Raise e => Raise e
  end.

Declare Scope py_scope.
Delimit Scope py_scope with py.
Notation "x <- m ;; k" := (bind m (fun x => k))
  (at level 61, m at next level, right associativity) : py_scope.

(** What [json.loads] produces. A [JObj] is the resulting [dict]: its keys
    are distinct, and [dict_get] takes the first binding of a key. *)
Inductive json : Type :=
| JNull
| JBool (b : bool)
| JInt (z : Z)
| JFloat (f : float)
| JStr (s : string)
| JList (l : list json)
| JObj (kv : list (string * json)).

Fixpoint dict_get (kv : list (string * json)) (key : string) : option json :=
  match kv with
  | [] => None
  | (k, v) :: rest => if String.eqb k key then Some v else dict_get rest key
  end.

(** [obj.get(key, default)]: only a dict has the method. *)
Definition py_get (obj : json) (key : string) (default : json) : res json :=
  match obj with
  | JObj kv =>
      Ok (match dict_get kv key with Some v => v | None => default end)
  | _ => Raise AttributeError
  end.

(** [v == "s"] against a string literal; never raises. *)
Definition py_eq_str (v : json) (s : string) : bool :=
  match v with
  | JStr t => String.eqb t s
  | _ => false
  end.

(** *** binary64 helpers *)

(** [float(z)]: round to nearest even, [OverflowError] beyond the range. *)
Definition float_of_int (z : Z) : res float :=
  match binary_normalize prec emax z 0 false with
  | S754_infinity _ => Raise OverflowError
  | sf => Ok (SF2Prim sf)
  end.

(** [z / 2] on an [int]: true division, correctly rounded. *)
Definition int_half (z : Z) : res float :=
  match binary_normalize prec emax z (-1) false with
  | S754_infinity _ => Raise OverflowError
  | sf => Ok (SF2Prim sf)
  end.

(** The integer part of a float (towards zero); [None] for NaN and the
    infinities. *)
Definition float_trunc (f : float) : option Z :=
  match Prim2SF f with
  | S754_zero _ => Some 0
  | S754_finite s m e =>
      let v := if 0 <=? e then Z.shiftl (Z.pos m) e
               else Z.shiftr (Z.pos m) (- e) in
      Some (if s then - v else v)
  | S754_infinity _ => None
  | S754_nan => None
  end.

(** [z > f] for an [int] and a [float]: Python compares the exact values. *)
Definition int_gt_float (z : Z) (f : float) : bool :=
  match Prim2SF f with
  | S754_nan => false
  | S754_infinity s => s
  | S754_zero _ => 0 <? z
  | S754_finite s m e =>
      let v := if s then Z.neg m else Z.pos m in
      if 0 <=? e then Z.shiftl v e <? z else v <? Z.shiftl z (- e)
  end.

(** [int(f)]. *)
Definition py_int (f : float) : res Z :=
  match float_trunc f with
  | Some z => Ok z
  | None =>
      if is_nan f
      then Raise (ValueError "cannot convert float NaN to integer")
      else Raise OverflowError
  end.

(** *** operators on dynamically typed values *)

Fixpoint repeat_string (s : string) (n : nat) : string :=
  match n with
  | O => ""
  | S n' => String.append s (repeat_string s n')
  end.

Fixpoint repeat_list {A : Type} (l : list A) (n : nat) : list A :=
  match n with
  | O => []
  | S n' => l ++ repeat_list l n'
  end.

(** [v[i]] for a literal index [i >= 0]. *)
Definition py_index (v : json) (i : nat) : res json :=
  match v with
  | JList l =>
      match nth_error l i with Some x => Ok x | None => Raise IndexError end
  | JStr s =>
      match String.get i s with
      | Some c => Ok (JStr (String c EmptyString))
      | None => Raise IndexError
      end
  | JObj _ => Raise KeyError
  | _ => Raise TypeError
  end.

(** [v * k] for an [int] literal [k]: arithmetic on numbers ([bool] is an
    [int]), repetition on sequences. *)
Definition py_mul_int (v : json) (k : Z) : res json :=
  match v with
  | JBool b => Ok (JInt (Z.b2z b * k))
  | JInt z => Ok (JInt (z * k))
  | JFloat f => (kf <- float_of_int k ;; Ok (JFloat (f * kf)%float))%py
  | JStr s => Ok (JStr (repeat_string s (Z.to_nat k)))
  | JList l => Ok (JList (repeat_list l (Z.to_nat k)))
  | _ => Raise TypeError
  end.

(** [-v]. *)
Definition py_neg (v : json) : res json :=
  match v with
  | JBool b => Ok (JInt (- Z.b2z b))
  | JInt z => Ok (JInt (- z))
  | JFloat f => Ok (JFloat (- f)%float)
  | _ => Raise TypeError
  end.

(** A Python number handed to a C [double] parameter.  The class of the
    exception a library binding raises on a value it cannot convert is not
    told apart from Python's own. *)
Definition to_double (v : json) : res float :=
  match v with
  | JBool b => float_of_int (Z.b2z b)
  | JInt z => float_of_int z
  | JFloat f => Ok f
  | _ => Raise TypeError
  end.

(** [x + v] for a float64 array element [x] and a Python value [v]; the
    classes of the exceptions numpy raises on non-numbers are not told
    apart. *)
Definition np_add (x : float) (v : json) : res float :=
  (d <- to_double v ;; Ok (x + d)%float)%py.

(** [v > c] for a [float] literal [c]. *)
Definition py_gt_float (v : json) (c : float) : res bool :=
  match v with
  | JBool b => Ok (int_gt_float (Z.b2z b) c)
  | JInt z => Ok (int_gt_float z c)
  | JFloat f => Ok (c <? f)%float
  | _ => Raise TypeError
  end.

(** [v * c] for a [float] literal [c], on a number [v]. *)
Definition py_mul_float (v : json) (c : float) : res float :=
  (d <- to_double v ;; Ok (d * c)%float)%py.

(** [a + b]. *)
Definition py_add (a b : json) : res json :=
  match a, b with
  | JStr s, JStr t => Ok (JStr (String.append s t))
  | JList l, JList m => Ok (JList (l ++ m))
  | JFloat f, JFloat g => Ok (JFloat (f + g)%float)
  | JFloat f, JInt z => (d <- float_of_int z ;; Ok (JFloat (f + d)%float))%py
  | JFloat f, JBool c =>
      (d <- float_of_int (Z.b2z c) ;; Ok (JFloat (f + d)%float))%py
  | JInt z, JFloat g => (d <- float_of_int z ;; Ok (JFloat (d + g)%float))%py
  | JBool c, JFloat g =>
      (d <- float_of_int (Z.b2z c) ;; Ok (JFloat (d + g)%float))%py
  | JInt y, JInt z => Ok (JInt (y + z))
  | JInt y, JBool c => Ok (JInt (y + Z.b2z c))
  | JBool c, JInt z => Ok (JInt (Z.b2z c + z))
  | JBool c, JBool d => Ok (JInt (Z.b2z c + Z.b2z d))
  | _, _ => Raise TypeError
  end.

(** [v / 2]: always a [float]. *)
Definition py_truediv2 (v : json) : res float :=
  match v with
  | JBool b => int_half (Z.b2z b)
  | JInt z => int_half z
  | JFloat f => Ok (f / 2)%float
  | _ => Raise TypeError
  end.

End Py.
Export Py.
Open Scope py_scope.

(* ================================================================= *)
(** ** numpy arrays *)

Module Np.

(** An H x W x C [uint8] array: rows of pixels of channel values. *)
Definition image : Type := list (list (list Z)).

(** [image.shape[:2]], as (h, w). *)
Definition shape (img : image) : Z * Z :=
  (Z.of_nat (List.length img), Z.of_nat (List.length (hd [] img))).

Definition map_pixels (f : Z -> Z) (img : image) : image :=
  map (map (map f)) img.

Definition channel_ok (p : Z) : bool := (0 <=? p) && (p <=? 255).

(** A non-empty rectangular 3-channel [uint8] image. *)
Definition valid_image (img : image) : bool :=
  let '(h, w) := shape img in
  (0 <? h) && (0 <? w)
  && forallb (fun row =>
                (Z.of_nat (List.length row) =? w)
                && forallb (fun px => (List.length px =? 3)%nat
                                      && forallb channel_ok px) row) img.

(** A [uint8] value as a float64. *)
Definition float_of_uint8 (p : Z) : float :=
  SF2Prim (binary_normalize prec emax p 0 false).

(** [np.clip(x, lo, hi)] on one element; NaN passes through. *)
Definition clip (x lo hi : float) : float :=
  if (x <? lo)%float then lo else if (hi <? x)%float then hi else x.

(** [.astype(np.uint8)] on one float64 element already clipped to
    [0, 255]: the fraction is dropped.  The conversion of NaN is left to
    the platform by numpy; it is [0] here, as on x86-64. *)
Definition astype_uint8 (x : float) : Z :=
  match float_trunc x with
  | Some z => z
  | None => 0
  end.

(** One element of [np.clip(result * brightness, 0, 255).astype(np.uint8)]. *)
Definition scale_channel (brightness : float) (p : Z) : Z :=
  astype_uint8 (clip (float_of_uint8 p * brightness)%float 0 255).

(** A float32 tensor: its shape and its elements in row-major order
    (binary32 values are kept as [spec_float]). *)
Record tensor : Type := mkTensor {
  t_shape : list Z;
  t_data : list spec_float
}.

(** [x.astype(np.float32) / 255.0] on one [uint8] element. *)
Definition normalize32 (p : Z) : spec_float :=
  SFdiv 24 128 (binary_normalize 24 128 p 0 false)
               (binary_normalize 24 128 255 0 false).

(** The elements of [image.transpose(2, 0, 1)], channel by channel. *)
Definition chw (img : image) : list Z :=
  let c := List.length (hd [] (hd [] img)) in
  flat_map (fun k => flat_map (fun row => map (fun px => nth k px 0) row) img)
           (seq 0 c).

End Np.
Export Np.

(* ================================================================= *)
(** ** The OpenCV entry points *)

Module Cv.

(** A 2 x 3 float64 affine matrix. *)
Record mat23 : Type := mkMat {
  m00 : float; m01 : float; m02 : float;
  m10 : float; m11 : float; m12 : float
}.

Definition set_m12 (M : mat23) (x : float) : mat23 :=
  {| m00 := m00 M; m01 := m01 M; m02 := m02 M;
     m10 := m10 M; m11 := m11 M; m12 := x |}.

Inductive border : Type :=
| BORDER_CONSTANT
| BORDER_REPLICATE.

Class Cv2 : Type := {
  (** [cv2.getRotationMatrix2D(center, angle, scale)], angle in degrees *)
  getRotationMatrix2D : Z * Z -> float -> float -> mat23;
  (** [cv2.warpAffine(src, M, dsize, borderMode=...)] *)
  warpAffine : image -> mat23 -> Z * Z -> border -> res image;
  (** [cv2.GaussianBlur(src, ksize, sigmaX)] *)
  GaussianBlur : image -> Z * Z -> float -> res image;
  (** [cv2.resize(src, dsize)] *)
  resize : image -> Z * Z -> res image
}.

(** A zero of either sign. *)
Definition zero_like (x : float) : Prop :=
  x = 0%float \/ x = (-0)%float.

(** The matrix of the identity map, up to the sign of its zeros. *)
Definition identity_like (M : mat23) : Prop :=
  m00 M = 1%float /\ zero_like (m01 M) /\ zero_like (m02 M) /\
  zero_like (m10 M) /\ m11 M = 1%float /\ zero_like (m12 M).

End Cv.
Export Cv.

(* ================================================================= *)
(** ** pipeline.py: class LivePortraitPipeline *)

Module Pipeline.

(** An ONNX Runtime [InferenceSession]: [get_inputs], [get_outputs] and
    [run] on one input tensor, any of which may raise. *)
Record session : Type := mkSession {
  run : tensor -> res (list tensor)
}.

(** The attributes [__init__] creates. *)
Record LivePortraitPipeline : Type := mkPipeline {
  is_ready : bool;
  reference_image : option image;
  appearance_extractor : option session;
  motion_extractor : option session;
  warping_module : option session;
  stitching_module : option session;
  landmark_detector : option session;
  source_kp : option tensor;
  source_rotation : option tensor;
  generator_input : option tensor;
  device : string
}.

(** [__init__]. *)
Definition init : LivePortraitPipeline :=
  {| is_ready := false; reference_image := None;
     appearance_extractor := None; motion_extractor := None;
     warping_module := None; stitching_module := None;
     landmark_detector := None;
     source_kp := None; source_rotation := None; generator_input := None;
     device := "cpu" |}.

(** Attribute assignments [self.x = v]. *)
Definition set_reference_image (v : option image) (s : LivePortraitPipeline)
  : LivePortraitPipeline :=
  {| is_ready := is_ready s; reference_image := v;
     appearance_extractor := appearance_extractor s;
     motion_extractor := motion_extractor s;
     warping_module := warping_module s;
     stitching_module := stitching_module s;
     landmark_detector := landmark_detector s;
     source_kp := source_kp s; source_rotation := source_rotation s;
     generator_input := generator_input s; device := device s |}.

Definition set_generator_input (v : option tensor) (s : LivePortraitPipeline)
  : LivePortraitPipeline :=
  {| is_ready := is_ready s; reference_image := reference_image s;
     appearance_extractor := appearance_extractor s;
     motion_extractor := motion_extractor s;
     warping_module := warping_module s;
     stitching_module := stitching_module s;
     landmark_detector := landmark_detector s;
     source_kp := source_kp s; source_rotation := source_rotation s;
     generator_input := v; device := device s |}.

Definition set_source_kp (v : option tensor) (s : LivePortraitPipeline)
  : LivePortraitPipeline :=
  {| is_ready := is_ready s; reference_image := reference_image s;
     appearance_extractor := appearance_extractor s;
     motion_extractor := motion_extractor s;
     warping_module := warping_module s;
     stitching_module := stitching_module s;
     landmark_detector := landmark_detector s;
     source_kp := v; source_rotation := source_rotation s;
     generator_input := generator_input s; device := device s |}.

Definition set_source_rotation (v : option tensor) (s : LivePortraitPipeline)
  : LivePortraitPipeline :=
  {| is_ready := is_ready s; reference_image := reference_image s;
     appearance_extractor := appearance_extractor s;
     motion_extractor := motion_extractor s;
     warping_module := warping_module s;
     stitching_module := stitching_module s;
     landmark_detector := landmark_detector s;
     source_kp := source_kp s; source_rotation := v;
     generator_input := generator_input s; device := device s |}.

(** A method body: it reads and writes the attributes of [self] and either
    returns or raises; what was written before a raise stays written. *)
Definition M (A : Type) : Type :=
  LivePortraitPipeline -> res A * LivePortraitPipeline.

Definition ret {A : Type} (a : A) : M A := fun s => (Ok a, s).

Definition raise {A : Type} (e : exn) : M A := fun s => (Raise e, s).

Definition mbind {A B : Type} (m : M A) (k : A -> M B) : M B :=
  fun s =>
    match m s with
    | (Ok a, s') => k a s'
    | (Raise e, s') => (Raise e, s')
    end.

(** Reading an attribute, writing one, and a computation on locals. *)
Definition gets {A : Type} (f : LivePortraitPipeline -> A) : M A :=
  fun s => (Ok (f s), s).

Definition assign (f : LivePortraitPipeline -> LivePortraitPipeline)
  : M unit :=
  fun s => (Ok tt, f s).

Definition lift {A : Type} (r : res A) : M A := fun s => (r, s).

(** [try: body except Exception as e: handler]. *)
Definition try_except {A : Type} (body : M A) (handler : exn -> M A) : M A :=
  fun s =>
    match body s with
    | (Ok a, s') => (Ok a, s')
    | (Raise e, s') => handler e s'
    end.

Declare Scope method_scope.
Delimit Scope method_scope with method.
Notation "x <~ m ;; k" := (mbind m (fun x => k))
  (at level 61, m at next level, right associativity) : method_scope.
Notation "m ;;; k" := (mbind m (fun _ => k))
  (at level 61, right associativity) : method_scope.
Open Scope method_scope.

Section Methods.

Context {cv : Cv2}.

(** [_preprocess_image]. *)
Definition _preprocess_image (image0 : image) : res tensor :=
  image1 <- (if let '(h, w) := shape image0 in (h =? 256) && (w =? 256)
             then Ok image0
             else resize image0 (256, 256)) ;;
  let c := Z.of_nat (List.length (hd [] (hd [] image1))) in
  let '(h, w) := shape image1 in
  Ok {| t_shape := [1; c; h; w]; t_data := map normalize32 (chw image1) |}.

(** The outputs of an extractor on the image, as computed inside [try]:
    preprocessing, then the session. *)
Definition extract (sess : session) (image0 : image) : res (list tensor) :=
  input_tensor <- _preprocess_image image0 ;;
  run sess input_tensor.

(** [outputs[0]] of the appearance extractor. *)
Definition appearance_features (sess : session) (image0 : image)
  : res tensor :=
  outputs <- extract sess image0 ;;
  match nth_error outputs 0 with
  | Some o => Ok o
  | None => Raise IndexError
  end.

(** [set_reference]. *)
Definition set_reference (image0 : image) : M unit :=
  assign (set_reference_image (Some image0)) ;;;
  (ae <~ gets appearance_extractor ;;
   match ae with
   | Some sess =>
       try_except
         (out0 <~ lift (appearance_features sess image0) ;;
          assign (set_generator_input (Some out0)))
         (fun _ => ret tt)
   | None => ret tt
   end) ;;;
  (me <~ gets motion_extractor ;;
   match me with
   | Some sess =>
       try_except
         (outputs <~ lift (extract sess image0) ;;
          assign (set_source_kp (nth_error outputs 0)) ;;;
          assign (set_source_rotation (nth_error outputs 1)))
         (fun _ => ret tt)
   | None => ret tt
   end).

(** The affine matrix of the head rotation (the statements between
    [result.shape[:2]] and [M[1, 2] += pitch * 2]). *)
Definition rotation_matrix (h w : Z) (head_rotation : json) : res mat23 :=
  let center := (w / 2, h / 2) in
  hr1 <- py_index head_rotation 1 ;;
  yaw <- py_mul_int hr1 30 ;;
  hr0 <- py_index head_rotation 0 ;;
  pitch <- py_mul_int hr0 15 ;;
  neg_yaw <- py_neg yaw ;;
  angle <- to_double neg_yaw ;;
  let M := getRotationMatrix2D center angle 1 in
  shift <- py_mul_int pitch 2 ;;
  m12' <- np_add (m12 M) shift ;;
  Ok (set_m12 M m12').

(** [if mouth_open > 0.1: ...]. *)
Definition brightness_step (result : image) (mouth_open : json) : res image :=
  bright <- py_gt_float mouth_open 0.1 ;;
  if bright : bool then
    scaled <- py_mul_float mouth_open 0.05 ;;
    let brightness := (1 + scaled)%float in
    Ok (map_pixels (scale_channel brightness) result)
  else Ok result.

(** The kernel size of the blink blur, [None] when [blink > 0.5] is false. *)
Definition blink_kernel (eye_blink_left eye_blink_right : json)
  : res (option Z) :=
  total <- py_add eye_blink_left eye_blink_right ;;
  blink <- py_truediv2 total ;;
  if (0.5 <? blink)%float then
    kernel_size <- py_int (3 + blink * 2)%float ;;
    let kernel_size :=
      if kernel_size mod 2 =? 0 then kernel_size + 1 else kernel_size in
    Ok (Some kernel_size)
  else Ok None.

(** [blink = ...; if blink > 0.5: ...]. *)
Definition blink_step (result : image) (eye_blink_left eye_blink_right : json)
  : res image :=
  k <- blink_kernel eye_blink_left eye_blink_right ;;
  match k with
  | Some kernel_size => GaussianBlur result (kernel_size, kernel_size) 0
  | None => Ok result
  end.

(** The frame computed from the copy [reference] of the stored image: the
    five [motion_params.get] and everything after the copy.  No attribute
    of [self] is read or written here. *)
Definition synthesize (reference : image) (motion_params : json) : res image :=
  head_rotation <- py_get motion_params "headRotation"
                     (JList [JInt 0; JInt 0; JInt 0]) ;;
  mouth_open <- py_get motion_params "mouthOpen" (JInt 0) ;;
  eye_blink_left <- py_get motion_params "eyeBlinkLeft" (JInt 0) ;;
  eye_blink_right <- py_get motion_params "eyeBlinkRight" (JInt 0) ;;
  smile <- py_get motion_params "smile" (JInt 0) ;;
  let result := reference in
  let '(h, w) := shape result in
  M <- rotation_matrix h w head_rotation ;;
  result <- warpAffine result M (w, h) BORDER_REPLICATE ;;
  result <- brightness_step result mouth_open ;;
  blink_step result eye_blink_left eye_blink_right.

(** [inference]: the check of [self.reference_image], then the frame
    computed from [self.reference_image.copy()]. *)
Definition inference (motion_params : json) : M image :=
  checked <~ gets reference_image ;;
  match checked with
  | None => raise (ValueError "Reference image not set")
  | Some _ =>
      stored <~ gets reference_image ;;
      match stored with
      | Some reference => lift (synthesize reference motion_params)
      | None => raise AttributeError
      end
  end.

End Methods.

End Pipeline.
Export Pipeline.

(* ================================================================= *)
(** ** server.py: the module globals and the request handlers *)

Module Server.

(** PIL, seen through the two uses the server makes of it. *)
Class Codec : Type := {
  (** [Image.open], [convert("RGB")], [resize((256, 256), LANCZOS)] and
      [np.array] on the uploaded bytes *)
  load_reference : string -> res image;
  (** [Image.fromarray], [save(format="JPEG", quality=85)] and
      [base64.b64encode(...).decode()] *)
  encode_frame : image -> res string
}.

(** The module globals. A WebSocket object is named by a number. *)
Record globals : Type := mkGlobals {
  pipeline : option LivePortraitPipeline;
  connected_clients : list nat;
  reference_image : option image
}.

Definition set_pipeline (v : option LivePortraitPipeline) (g : globals)
  : globals :=
  {| pipeline := v; connected_clients := connected_clients g;
     reference_image := reference_image g |}.

Definition set_reference_image (v : option image) (g : globals) : globals :=
  {| pipeline := pipeline g; connected_clients := connected_clients g;
     reference_image := v |}.

Definition set_connected_clients (v : list nat) (g : globals) : globals :=
  {| pipeline := pipeline g; connected_clients := v;
     reference_image := reference_image g |}.

(** [set.add] and [set.discard]. *)
Definition set_add (x : nat) (s : list nat) : list nat :=
  if existsb (Nat.eqb x) s then s else x :: s.

Definition set_discard (x : nat) (s : list nat) : list nat :=
  filter (fun y => negb (Nat.eqb x y)) s.

(** [pipeline is not None and pipeline.is_ready]. *)
Definition pipeline_ready (g : globals) : bool :=
  match pipeline g with
  | Some p => is_ready p
  | None => false
  end.

Record status_body : Type := mkStatus {
  status : string;
  st_pipeline_ready : bool;
  reference_loaded : bool;
  n_connected_clients : nat
}.

(** [GET /status]. *)
Definition get_status (g : globals) : status_body :=
  {| status := "running";
     st_pipeline_ready := pipeline_ready g;
     reference_loaded :=
       match reference_image g with Some _ => true | None => false end;
     n_connected_clients := List.length (connected_clients g) |}.

Inductive http_response : Type :=
| Http200 (status message : string)
| Http400 (detail : exn).

(** The messages the server sends on a WebSocket.  [ErrorMsg e] stands
    for [{"type": "error", "message": str(e)}]. *)
Inductive reply : Type :=
| FrameMsg (image_url : string)
| ErrorMsg (e : exn)
| StatusMsg (message : string)
| PongMsg.

(** What the loop receives: a text frame, given by what [json.loads]
    makes of it, or the disconnection of the client. *)
Inductive event : Type :=
| Text (loaded : res json)
| Disconnect.

Inductive handler_state : Type :=
| Open
| Closed.

Section Handlers.

Context {cv : Cv2} {codec : Codec}.

(** [POST /reference]. *)
Definition upload_reference (contents : string) (g : globals)
  : http_response * globals :=
  match load_reference contents with
  | Raise e => (Http400 e, g)
  | Ok image0 =>
      let g1 := set_reference_image (Some image0) g in
      match pipeline g1 with
      | Some p =>
          if is_ready p then
            match set_reference image0 p with
            | (Ok _, p') =>
                (Http200 "success" "Reference image uploaded",
                 set_pipeline (Some p') g1)
            | (Raise e, p') => (Http400 e, set_pipeline (Some p') g1)
            end
          else (Http200 "success" "Reference image uploaded", g1)
      | None => (Http200 "success" "Reference image uploaded", g1)
      end
  end.

(** The [motion] branch, from [params = ...] on. *)
Definition on_motion (message : json) (g : globals)
  : list reply * option exn * globals :=
  match py_get message "params" (JObj []) with
  | Raise e => ([], Some e, g)
  | Ok params =>
      match pipeline g, reference_image g with
      | Some p, Some _ =>
          if is_ready p then
            let '(result_image, p') := inference params p in
            let g' := set_pipeline (Some p') g in
            match (frame <- result_image ;; encode_frame frame) with
            | Ok image_base64 =>
                ([FrameMsg (String.append "data:image/jpeg;base64,"
                                          image_base64)], None, g')
            | Raise e => ([ErrorMsg e], None, g')
            end
          else ([StatusMsg "Pipeline not ready or reference not loaded"],
                None, g)
      | _, _ => ([StatusMsg "Pipeline not ready or reference not loaded"],
                 None, g)
      end
  end.

(** One turn of the loop body on a received text frame: the replies sent,
    the exception that leaves the body (if one does) and the globals. *)
Definition on_text (loaded : res json) (g : globals)
  : list reply * option exn * globals :=
  match loaded with
  | Raise e => ([], Some e, g)
  | Ok message =>
      match py_get message "type" JNull with
      | Raise e => ([], Some e, g)
      | Ok ty =>
          if py_eq_str ty "motion" then on_motion message g
          else
            match py_get message "type" JNull with
            | Raise e => ([], Some e, g)
            | Ok ty' =>
                if py_eq_str ty' "ping" then ([PongMsg], None, g)
                else ([], None, g)
            end
      end
  end.

(** The [while True] loop inside [try]: it ends when [receive_text]
    raises [WebSocketDisconnect] or when an exception leaves the body;
    when the events run out the handler is waiting in [receive_text]. *)
Fixpoint serve (evs : list event) (g : globals)
  : list reply * handler_state * globals :=
  match evs with
  | [] => ([], Open, g)
  | Disconnect :: _ => ([], Closed, g)
  | Text loaded :: rest =>
      match on_text loaded g with
      | (out, Some _, g') => (out, Closed, g')
      | (out, None, g') =>
          let '(out', st, g'') := serve rest g' in
          (out ++ out', st, g'')
      end
  end.

(** [websocket_endpoint]: accept and register, serve, and unregister in
    [finally] once the loop has ended. *)
Definition websocket_endpoint (websocket : nat) (evs : list event)
  (g : globals) : list reply * handler_state * globals :=
  let g1 := set_connected_clients (set_add websocket (connected_clients g)) g in
  let '(out, st, g2) := serve evs g1 in
  match st with
  | Closed =>
      (out, Closed,
       set_connected_clients (set_discard websocket (connected_clients g2)) g2)
  | Open => (out, Open, g2)
  end.

End Handlers.

End Server.

(* ================================================================= *)
(** ** Interleavings of one [set_reference] with [inference] calls

    The calls are cut at every access to an attribute of the pipeline
    object: each step below reads or writes [self] once.  A schedule
    picks, step by step, the call that moves.  The points at which the
    event loop can really switch tasks are a subset of these. *)

Module Sched.

(** Program points of [set_reference(image)]. *)
Inductive writer : Type :=
| W0
| W1
| W2
| W3 (outputs : list tensor)
| WDone.

(** Program points of [inference(motion_params)]. *)
Inductive reader : Type :=
| R0 (motion_params : json)
| R1 (motion_params : json)
| RDone (r : res image).

Record config : Type := mkConfig {
  shared : LivePortraitPipeline;
  wr : writer;
  readers : nat -> reader
}.

Section Steps.

Context {cv : Cv2}.

Definition writer_step (image0 : image) (w : writer)
  (s : LivePortraitPipeline) : writer * LivePortraitPipeline :=
  match w with
  | W0 => (W1, Pipeline.set_reference_image (Some image0) s)
  | W1 =>
      match appearance_extractor s with
      | Some sess =>
          match appearance_features sess image0 with
          | Ok out0 => (W2, set_generator_input (Some out0) s)
          | Raise _ => (W2, s)
          end
      | None => (W2, s)
      end
  | W2 =>
      match motion_extractor s with
      | Some sess =>
          match extract sess image0 with
          | Ok outputs => (W3 outputs, set_source_kp (nth_error outputs 0) s)
          | Raise _ => (WDone, s)
          end
      | None => (WDone, s)
      end
  | W3 outputs => (WDone, set_source_rotation (nth_error outputs 1) s)
  | WDone => (WDone, s)
  end.

Definition reader_step (r : reader) (s : LivePortraitPipeline) : reader :=
  match r with
  | R0 p =>
      match Pipeline.reference_image s with
      | None => RDone (Raise (ValueError "Reference image not set"))
      | Some _ => R1 p
      end
  | R1 p =>
      match Pipeline.reference_image s with
      | None => RDone (Raise AttributeError)
      | Some reference => RDone (synthesize reference p)
      end
  | RDone r => RDone r
  end.

(** Thread [0] is the [set_reference] call, thread [S i] is reader [i]. *)
Definition step (image0 : image) (tid : nat) (c : config) : config :=
  match tid with
  | O =>
      let '(w', s') := writer_step image0 (wr c) (shared c) in
      {| shared := s'; wr := w'; readers := readers c |}
  | S i =>
      {| shared := shared c; wr := wr c;
         readers := fun j => if Nat.eqb j i
                             then reader_step (readers c i) (shared c)
                             else readers c j |}
  end.

Definition run (image0 : image) (schedule : list nat) (c : config) : config :=
  fold_left (fun c tid => step image0 tid c) schedule c.

Definition start (old : LivePortraitPipeline) (params : nat -> json) : config :=
  {| shared := old; wr := W0; readers := fun i => R0 (params i) |}.

End Steps.

(** The invariant of the schedules that start from the pipeline [old],
    with [set_reference img] and the parameters [params i] of reader
    [i]. *)
Section Invariant.

Context {cv : Cv2}.

Variable img : image.
Variable old : LivePortraitPipeline.
Variable params : nat -> json.

(** What holds of reader [i] in a configuration. *)
Definition reader_ok (c : config) (i : nat) : Prop :=
  let new := snd (set_reference img old) in
  match readers c i with
  | R0 p => p = params i
  | R1 p =>
      p = params i /\ Pipeline.reference_image (shared c) <> None
  | RDone r =>
      r = fst (inference (params i) old)
      \/ r = fst (inference (params i) new)
  end.

(** The stored image is the old one until the first step of
    [set_reference], and the new one from then on. *)
Definition reference_ok (c : config) : Prop :=
  (wr c = W0
   /\ Pipeline.reference_image (shared c)
      = Pipeline.reference_image old)
  \/ (wr c <> W0
      /\ Pipeline.reference_image (shared c) = Some img).

Definition sched_inv (c : config) : Prop :=
  reference_ok c /\ forall i, reader_ok c i.

End Invariant.

End Sched.

(* ================================================================= *)
(** ** An executable instance of the library interfaces

    A small stand-in for the OpenCV and PIL entry points, so that the model
    runs on concrete inputs: truncated series for the sine and cosine,
    nearest-neighbour sampling for the warp and the resize, a box mean for
    the blur, and a codec that writes the channel values out in decimal. *)

Module Run.

Definition fz (z : Z) : float := SF2Prim (binary_normalize prec emax z 0 false).

Definition cos_series (x : float) : float :=
  let x2 := (x * x)%float in
  (1 - x2 / 2 + x2 * x2 / 24 - x2 * x2 * x2 / 720)%float.

Definition sin_series (x : float) : float :=
  let x2 := (x * x)%float in
  (x - x * x2 / 6 + x * x2 * x2 / 120 - x * x2 * x2 * x2 / 5040)%float.

Definition rotation (center : Z * Z) (angle scale : float) : mat23 :=
  let '(cx, cy) := center in
  let theta := (angle * 3.141592653589793 / 180)%float in
  let alpha := (cos_series theta * scale)%float in
  let beta := (sin_series theta * scale)%float in
  {| m00 := alpha; m01 := beta;
     m02 := ((1 - alpha) * fz cx - beta * fz cy)%float;
     m10 := (- beta)%float; m11 := alpha;
     m12 := (beta * fz cx + (1 - alpha) * fz cy)%float |}.

(** The nearest integer, [0] where there is none. *)
Definition nearest (x : float) : Z :=
  match float_trunc (x + 0.5)%float with
  | Some z => if (x + 0.5 <? 0)%float then z - 1 else z
  | None => 0
  end.

Definition clamp (lo hi z : Z) : Z := Z.max lo (Z.min hi z).

Definition pixel_at (src : image) (b : border) (x y : Z) : list Z :=
  let '(h, w) := shape src in
  let inside := (0 <=? x) && (x <? w) && (0 <=? y) && (y <? h) in
  match b with
  | BORDER_CONSTANT =>
      if inside
      then nth (Z.to_nat x) (nth (Z.to_nat y) src []) []
      else [0; 0; 0]
  | BORDER_REPLICATE =>
      nth (Z.to_nat (clamp 0 (w - 1) x))
          (nth (Z.to_nat (clamp 0 (h - 1) y)) src []) []
  end.

Definition zrange (n : Z) : list Z := map Z.of_nat (seq 0 (Z.to_nat n)).

Definition warp (src : image) (M : mat23) (dsize : Z * Z) (b : border)
  : res image :=
  let '(w, h) := dsize in
  let d := (m00 M * m11 M - m01 M * m10 M)%float in
  if (d =? 0)%float || negb (0 <? fst (shape src)) then Raise CvError
  else
    let i00 := (m11 M / d)%float in
    let i01 := (- m01 M / d)%float in
    let i10 := (- m10 M / d)%float in
    let i11 := (m00 M / d)%float in
    let i02 := (- (i00 * m02 M + i01 * m12 M))%float in
    let i12 := (- (i10 * m02 M + i11 * m12 M))%float in
    Ok (map (fun y =>
               map (fun x =>
                      pixel_at src b
                        (nearest (i00 * fz x + i01 * fz y + i02)%float)
                        (nearest (i10 * fz x + i11 * fz y + i12)%float))
                   (zrange w))
            (zrange h)).

Definition box_blur (src : image) (ksize : Z * Z) (sigma : float)
  : res image :=
  let '(kx, ky) := ksize in
  let '(h, w) := shape src in
  if (kx <=? 0) || (ky <=? 0) || Z.even kx || Z.even ky || negb (0 <? h)
  then Raise CvError
  else
    let rx := kx / 2 in
    let ry := ky / 2 in
    let offsets r := map (fun z => z - r) (zrange (2 * r + 1)) in
    Ok (map (fun y =>
               map (fun x =>
                      map (fun c =>
                             fold_left Z.add
                               (flat_map
                                  (fun dy =>
                                     map (fun dx =>
                                            nth c (pixel_at src BORDER_REPLICATE
                                                     (x + dx) (y + dy)) 0)
                                         (offsets rx))
                                  (offsets ry)) 0
                             / (kx * ky))
                          (seq 0 3))
                   (zrange w))
            (zrange h)).

Definition nearest_resize (src : image) (dsize : Z * Z) : res image :=
  let '(w, h) := dsize in
  let '(h0, w0) := shape src in
  if negb (0 <? h0) || negb (0 <? w0) then Raise CvError
  else
    Ok (map (fun y =>
               map (fun x =>
                      pixel_at src BORDER_REPLICATE (x * w0 / w) (y * h0 / h))
                   (zrange w))
            (zrange h)).

Definition cv : Cv2 := {|
  getRotationMatrix2D := rotation;
  warpAffine := warp;
  GaussianBlur := box_blur;
  resize := nearest_resize
|}.

Definition digit (n : Z) : string :=
  String (ascii_of_nat (48 + Z.to_nat n)) EmptyString.

Definition decimal (p : Z) : string :=
  String.append (digit (p / 100 mod 10))
    (String.append (digit (p / 10 mod 10)) (digit (p mod 10))).

(** A codec on single-row images: three decimal digits per channel. *)
Fixpoint parse_channels (s : string) : list Z :=
  match s with
  | String a (String b (String c rest)) =>
      (Z.of_nat (nat_of_ascii a) - 48) * 100
      + (Z.of_nat (nat_of_ascii b) - 48) * 10
      + (Z.of_nat (nat_of_ascii c) - 48) :: parse_channels rest
  | _ => []
  end.

Fixpoint group3 (l : list Z) : list (list Z) :=
  match l with
  | a :: b :: c :: rest => [a; b; c] :: group3 rest
  | _ => []
  end.

Definition load (contents : string) : res image :=
  match group3 (parse_channels contents) with
  | [] => Raise PILError
  | row => Ok [row]
  end.

Definition encode (img : image) : res string :=
  Ok (String.concat "" (map decimal (List.concat (List.concat img)))).

Definition codec : Server.Codec := {|
  Server.load_reference := load;
  Server.encode_frame := encode
|}.

(** A 2 x 2 test image and two reference states. *)
Definition img2 : image :=
  [ [ [10; 20; 30]; [40; 50; 60] ];
    [ [70; 80; 90]; [100; 200; 250] ] ].

(** A 1 x 2 image, as [load] reads it from ["010020030040050060"]. *)
Definition row2 : image := [ [ [10; 20; 30]; [40; 50; 60] ] ].

Definition img2' : image :=
  [ [ [1; 2; 3]; [4; 5; 6] ];
    [ [7; 8; 9]; [10; 11; 12] ] ].

Definition ready : LivePortraitPipeline :=
  {| is_ready := true; Pipeline.reference_image := None;
     appearance_extractor := None; motion_extractor := None;
     warping_module := None; stitching_module := None;
     landmark_detector := None;
     source_kp := None; source_rotation := None; generator_input := None;
     device := "cpu" |}.

End Run.

(* ================================================================= *)
(** ** Inputs and formulas named by the properties *)

Module Spec.

(** The motion record with every parameter at zero. *)
Definition zero_motion : json :=
  JObj [("headRotation", JList [JInt 0; JInt 0; JInt 0]);
        ("mouthOpen", JInt 0);
        ("eyeBlinkLeft", JInt 0);
        ("eyeBlinkRight", JInt 0);
        ("smile", JInt 0)].

(** The [motion] message that carries it. *)
Definition zero_motion_message : json :=
  JObj [("type", JStr "motion"); ("params", zero_motion)].

(** On the image, OpenCV's rotation matrix for angle 0 and scale 1 is the
    identity. *)
Definition rotation_by_zero_is_identity (cv : Cv2) (img : image) : Prop :=
  let '(h, w) := shape img in
  identity_like (getRotationMatrix2D (w / 2, h / 2) 0 1).

(** On a valid image, OpenCV's warp by the identity returns the image. *)
Definition identity_warp_copies (cv : Cv2) (img : image) : Prop :=
  valid_image img = true ->
  forall M : mat23,
    identity_like M ->
    let '(h, w) := shape img in
    warpAffine img M (w, h) BORDER_REPLICATE = Ok img.





(** The brightness formula at [mouthOpen = 0.2], in exact arithmetic:
    the integer part of [clamp(p * 1.01, 0, 255)]. *)
Definition brighten_101 (p : Z) : Z := Z.min 255 (Z.max 0 (p * 101 / 100)).

(** Two motion records that agree on every key but ["smile"]. *)
Definition same_but_smile (kv1 kv2 : list (string * json)) : Prop :=
  forall key : string, key <> "smile" -> dict_get kv1 key = dict_get kv2 key.

(** The state a sequence of [inference] calls leaves behind. *)
Definition after_inferences {cv : Cv2} (calls : list json)
  (self : LivePortraitPipeline) : LivePortraitPipeline :=
  fold_left (fun s q => snd (inference q s)) calls self.

(** The reply to a lone [motion] message is one of the three typed
    messages. *)
Definition typed_reply (out : list Server.reply) : Prop :=
  exists r, out = [r] /\
    ((exists url, r = Server.FrameMsg url)
     \/ (exists e, r = Server.ErrorMsg e)
     \/ r = Server.StatusMsg "Pipeline not ready or reference not loaded").

(** [kv.get(key, default)]. *)
Definition field (kv : list (string * json)) (key : string) (default : json)
  : json :=
  match dict_get kv key with
  | Some v => v
  | None => default
  end.

(** The brightness step and then the blur step, on the warped frame. *)
Definition expression_effects {cv : Cv2} (warped : image)
  (kv : list (string * json)) : res image :=
  bright <- brightness_step warped (field kv "mouthOpen" (JInt 0)) ;;
  blink_step bright (field kv "eyeBlinkLeft" (JInt 0))
                    (field kv "eyeBlinkRight" (JInt 0)).

(** A Python number: an [int] (a [bool] counts as one) or a [float]. *)
Inductive number : Type :=
| NInt (z : Z)
| NFloat (f : float).

Definition as_number (v : json) : option number :=
  match v with
  | JBool b => Some (NInt (Z.b2z b))
  | JInt z => Some (NInt z)
  | JFloat f => Some (NFloat f)
  | _ => None
  end.

(** [n * k] for an [int] [k], [-n], and [n] as a C double. *)
Definition times (n : number) (k : Z) : res number :=
  match n with
  | NInt z => Ok (NInt (z * k))
  | NFloat f => kf <- float_of_int k ;; Ok (NFloat (f * kf)%float)
  end.

Definition negate (n : number) : number :=
  match n with
  | NInt z => NInt (- z)
  | NFloat f => NFloat (- f)%float
  end.

Definition as_double (n : number) : res float :=
  match n with
  | NInt z => float_of_int z
  | NFloat f => Ok f
  end.

(** The angle [-(yaw * 30)] and the shift [pitch * 15 * 2], as doubles. *)
Definition rotation_angle (yaw : number) : res float :=
  scaled <- times yaw 30 ;;
  as_double (negate scaled).

Definition pitch_shift (pitch : number) : res float :=
  scaled <- times pitch 15 ;;
  doubled <- times scaled 2 ;;
  as_double doubled.

(** The frame obtained by an affine warp of the reference whose matrix is
    the rotation by [angle] degrees about the image center at scale 1,
    with [shift] added to its vertical translation and every other entry
    as OpenCV gives it, borders replicated; then the expression
    effects. *)
Definition warp_then_effects {cv : Cv2} (reference : image)
  (angle shift : float) (kv : list (string * json)) : res image :=
  let '(h, w) := shape reference in
  let M := getRotationMatrix2D (w / 2, h / 2) angle 1 in
  warped <- warpAffine reference
              {| m00 := m00 M; m01 := m01 M; m02 := m02 M;
                 m10 := m10 M; m11 := m11 M;
                 m12 := (m12 M + shift)%float |}
              (w, h) BORDER_REPLICATE ;;
  expression_effects warped kv.

(** [dst] has the rows, pixels and channels of [src], and each of its
    channel values is [f] of the value at the same place in [src]. *)
Definition pixelwise (f : Z -> Z) (src dst : image) : Prop :=
  List.length dst = List.length src
  /\ forall i, (i < List.length src)%nat ->
       List.length (nth i dst []) = List.length (nth i src [])
       /\ forall j, (j < List.length (nth i src []))%nat ->
            List.length (nth j (nth i dst []) [])
            = List.length (nth j (nth i src []) [])
            /\ forall k, (k < List.length (nth j (nth i src []) []))%nat ->
                 nth k (nth j (nth i dst []) []) 0
                 = f (nth k (nth j (nth i src []) []) 0).

(** Every channel value is an 8-bit value. *)
Definition pixels_in_range (img : image) : Prop :=
  forall row px p, In row img -> In px row -> In p px -> 0 <= p <= 255.

(** The error the specification calls ReferenceNotSetError. *)
Definition ReferenceNotSetError : exn := ValueError "Reference image not set".

(** No reference is set, as the gateway or as the pipeline sees it. *)
Definition reference_missing (g : Server.globals) : Prop :=
  Server.reference_image g = None
  \/ exists pl, Server.pipeline g = Some pl
                /\ Pipeline.reference_image pl = None.



(** A payload that [json.loads] rejects, or that is not a JSON object. *)
Definition not_an_object (loaded : res json) : bool :=
  match loaded with
  | Ok (JObj _) => false
  | _ => true
  end.

End Spec.
Export Spec.

(* ================================================================= *)
(** ** Fixtures *)

Module Fixtures.

(** An extractor that fails on an image whose first channel value is 0. *)
Definition flaky : session :=
  {| run := fun t =>
              match hd S754_nan (t_data t) with
              | S754_zero _ => Raise CvError
              | _ => Ok [ {| t_shape := [1]; t_data := [hd S754_nan (t_data t)] |};
                          {| t_shape := [1]; t_data := [] |} ]
              end |}.

(** What [flaky] extracts from [Run.img2]. *)
Definition feat : tensor :=
  {| t_shape := [1]; t_data := [normalize32 10] |}.

Definition dark : image :=
  [ [ [0; 0; 0]; [4; 5; 6] ];
    [ [7; 8; 9]; [10; 11; 12] ] ].

Definition with_extractors : LivePortraitPipeline :=
  {| is_ready := true; Pipeline.reference_image := None;
     appearance_extractor := Some flaky; motion_extractor := Some flaky;
     warping_module := None; stitching_module := None;
     landmark_detector := None;
     source_kp := None; source_rotation := None; generator_input := None;
     device := "cpu" |}.


Definition serving : Server.globals :=
  {| Server.pipeline := Some Run.ready;
     Server.connected_clients := [];
     Server.reference_image := None |}.

End Fixtures.

(* ================================================================= *)
(** ** pipeline.py: loading the models and reading a model output back *)

Module Loading.

(** What [load_models] meets outside the pipeline object: whether
    [import onnxruntime] succeeds, the providers it lists, the files under
    the module's directory (a path is the list of its components) and the
    session constructor. *)
Record runtime : Type := mkRuntime {
  ort_available : bool;
  get_available_providers : res (list string);
  path_exists : list string -> bool;
  InferenceSession : list string -> list string -> res session
}.

(** [CHECKPOINT_DIR], relative to the directory of the module. *)
Definition CHECKPOINT_DIR : list string := ["checkpoints"].

Definition set_is_ready (v : bool) (s : LivePortraitPipeline)
  : LivePortraitPipeline :=
  {| is_ready := v; Pipeline.reference_image := Pipeline.reference_image s;
     appearance_extractor := appearance_extractor s;
     motion_extractor := motion_extractor s;
     warping_module := warping_module s;
     stitching_module := stitching_module s;
     landmark_detector := landmark_detector s;
     source_kp := source_kp s; source_rotation := source_rotation s;
     generator_input := generator_input s; device := device s |}.

Definition set_device (v : string) (s : LivePortraitPipeline)
  : LivePortraitPipeline :=
  {| is_ready := is_ready s;
     Pipeline.reference_image := Pipeline.reference_image s;
     appearance_extractor := appearance_extractor s;
     motion_extractor := motion_extractor s;
     warping_module := warping_module s;
     stitching_module := stitching_module s;
     landmark_detector := landmark_detector s;
     source_kp := source_kp s; source_rotation := source_rotation s;
     generator_input := generator_input s; device := v |}.

Definition set_appearance_extractor (v : option session)
  (s : LivePortraitPipeline) : LivePortraitPipeline :=
  {| is_ready := is_ready s;
     Pipeline.reference_image := Pipeline.reference_image s;
     appearance_extractor := v;
     motion_extractor := motion_extractor s;
     warping_module := warping_module s;
     stitching_module := stitching_module s;
     landmark_detector := landmark_detector s;
     source_kp := source_kp s; source_rotation := source_rotation s;
     generator_input := generator_input s; device := device s |}.

Definition set_motion_extractor (v : option session)
  (s : LivePortraitPipeline) : LivePortraitPipeline :=
  {| is_ready := is_ready s;
     Pipeline.reference_image := Pipeline.reference_image s;
     appearance_extractor := appearance_extractor s;
     motion_extractor := v;
     warping_module := warping_module s;
     stitching_module := stitching_module s;
     landmark_detector := landmark_detector s;
     source_kp := source_kp s; source_rotation := source_rotation s;
     generator_input := generator_input s; device := device s |}.

Definition set_stitching_module (v : option session)
  (s : LivePortraitPipeline) : LivePortraitPipeline :=
  {| is_ready := is_ready s;
     Pipeline.reference_image := Pipeline.reference_image s;
     appearance_extractor := appearance_extractor s;
     motion_extractor := motion_extractor s;
     warping_module := warping_module s;
     stitching_module := v;
     landmark_detector := landmark_detector s;
     source_kp := source_kp s; source_rotation := source_rotation s;
     generator_input := generator_input s; device := device s |}.

Definition set_landmark_detector (v : option session)
  (s : LivePortraitPipeline) : LivePortraitPipeline :=
  {| is_ready := is_ready s;
     Pipeline.reference_image := Pipeline.reference_image s;
     appearance_extractor := appearance_extractor s;
     motion_extractor := motion_extractor s;
     warping_module := warping_module s;
     stitching_module := stitching_module s;
     landmark_detector := v;
     source_kp := source_kp s; source_rotation := source_rotation s;
     generator_input := generator_input s; device := device s |}.

(** [_load_onnx_models], as [load_models] calls it: its own
    [import onnxruntime] has succeeded before. *)
Definition _load_onnx_models (rt : runtime) (model_path : list string)
  (providers : list string) : M unit :=
  let ae_path := model_path ++ ["appearance_feature_extractor.onnx"] in
  (if path_exists rt ae_path then
     sess <~ lift (InferenceSession rt ae_path providers) ;;
     assign (set_appearance_extractor (Some sess))
   else ret tt) ;;;
  let me_path := model_path ++ ["motion_extractor.onnx"] in
  (if path_exists rt me_path then
     sess <~ lift (InferenceSession rt me_path providers) ;;
     assign (set_motion_extractor (Some sess))
   else ret tt) ;;;
  let st_path := model_path ++ ["stitching.onnx"] in
  (if path_exists rt st_path then
     sess <~ lift (InferenceSession rt st_path providers) ;;
     assign (set_stitching_module (Some sess))
   else ret tt) ;;;
  let lm_path := model_path ++ ["landmark.onnx"] in
  (if path_exists rt lm_path then
     sess <~ lift (InferenceSession rt lm_path providers) ;;
     assign (set_landmark_detector (Some sess))
   else ret tt).

(** [load_models].  Both [except] clauses do the same to the object, so
    the failed import and any other exception share one handler. *)
Definition load_models (rt : runtime) : M unit :=
  if ort_available rt then
    try_except
      (available <~ lift (get_available_providers rt) ;;
       providers <~
         (if existsb (String.eqb "CUDAExecutionProvider") available
          then assign (set_device "cuda") ;;;
               ret ["CUDAExecutionProvider"; "CPUExecutionProvider"]
          else assign (set_device "cpu") ;;;
               ret ["CPUExecutionProvider"]) ;;
       let onnx_path := CHECKPOINT_DIR ++ ["liveportrait_onnx"] in
       (if path_exists rt onnx_path
        then _load_onnx_models rt onnx_path providers
        else ret tt) ;;;
       assign (set_is_ready true))
      (fun _ => assign (set_is_ready true))
  else assign (set_is_ready true).

(** *** [_postprocess_image] *)

(** [255.0] and the clip bounds as binary32 values. *)
Definition f32 (z : Z) : spec_float := binary_normalize 24 128 z 0 false.

(** [np.clip(x, 0, 255)] on one float32 element; NaN passes through. *)
Definition clip32 (x : spec_float) : spec_float :=
  if SFltb x (f32 0) then f32 0
  else if SFltb (f32 255) x then f32 255
  else x.

(** [.astype(np.uint8)] on one clipped float32 element: the fraction is
    dropped; NaN gives [0], as on x86-64. *)
Definition astype_uint8_32 (x : spec_float) : Z :=
  match x with
  | S754_zero _ => 0
  | S754_finite s m e =>
      let v := if 0 <=? e then Z.shiftl (Z.pos m) e
               else Z.shiftr (Z.pos m) (- e) in
      if s then - v else v
  | S754_infinity _ => 0
  | S754_nan => 0
  end.

(** One element of [np.clip(output * 255.0, 0, 255).astype(np.uint8)]. *)
Definition denormalize32 (x : spec_float) : Z :=
  astype_uint8_32 (clip32 (SFmul 24 128 x (f32 255))).

(** [_postprocess_image]: [output[0]] needs a first axis that is not
    empty, [transpose(1, 2, 0)] needs three axes left. *)
Definition _postprocess_image (output : tensor) : res image :=
  match t_shape output with
  | [] => Raise IndexError
  | n :: rest =>
      if n <=? 0 then Raise IndexError
      else
        match rest with
        | [c; h; w] =>
            let plane := firstn (Z.to_nat (c * h * w)) (t_data output) in
            Ok (map (fun y =>
                       map (fun x =>
                              map (fun k =>
                                     denormalize32
                                       (nth (k * (Z.to_nat h * Z.to_nat w)
                                             + (y * Z.to_nat w + x))
                                            plane S754_nan))
                                  (seq 0 (Z.to_nat c)))
                           (seq 0 (Z.to_nat w)))
                    (seq 0 (Z.to_nat h)))
        | _ => Raise (ValueError "axes don't match array")
        end
  end.

End Loading.
Export Loading.

(* ================================================================= *)
(** ** server.py: start-up and the life of the server *)

Module Life.

(** The module globals before [startup]. *)
Definition initial : Server.globals :=
  {| Server.pipeline := None;
     Server.connected_clients := [];
     Server.reference_image := None |}.

(** [startup]. *)
Definition startup (rt : runtime) (g : Server.globals) : Server.globals :=
  match load_models rt Pipeline.init with
  | (Ok _, p) => Server.set_pipeline (Some p) g
  | (Raise _, _) => Server.set_pipeline None g
  end.

(** What the server is asked to do after [startup]: an upload, a status
    query, or a WebSocket connection with the events it delivers. *)
Inductive request : Type :=
| Upload (contents : string)
| GetStatus
| Connect (websocket : nat) (evs : list Server.event).

Section Requests.

Context {cv : Cv2} {codec : Server.Codec}.

Definition handle (g : Server.globals) (r : request) : Server.globals :=
  match r with
  | Upload contents => snd (Server.upload_reference contents g)
  | GetStatus => g
  | Connect websocket evs => snd (Server.websocket_endpoint websocket evs g)
  end.

Definition after_requests (rt : runtime) (reqs : list request)
  : Server.globals :=
  fold_left handle reqs (startup rt initial).

(** The reply to a [motion] message once the frame has been computed or
    has failed. *)
Definition frame_reply (r : res image) : Server.reply :=
  match (frame <- r ;; Server.encode_frame frame) with
  | Ok image_base64 =>
      Server.FrameMsg (String.append "data:image/jpeg;base64," image_base64)
  | Raise e => Server.ErrorMsg e
  end.

(** The replies a JSON object gets, by its ["type"]. *)
Definition object_replies (g : Server.globals) (kv : list (string * json))
  : list Server.reply :=
  if py_eq_str (field kv "type" JNull) "motion" then
    fst (fst (Server.on_motion (JObj kv) g))
  else if py_eq_str (field kv "type" JNull) "ping" then [Server.PongMsg]
  else [].

End Requests.

End Life.

(* ================================================================= *)
(** ** Further inputs and formulas *)

Module More.

(** The four parameters [inference] reads and uses; of the head rotation,
    the first two entries. *)
Definition head2 (v : json) : json :=
  match v with
  | JList (pitch :: yaw :: _) => JList [pitch; yaw]
  | _ => v
  end.

Definition same_motion (kv1 kv2 : list (string * json)) : Prop :=
  head2 (field kv1 "headRotation" (JList [JInt 0; JInt 0; JInt 0]))
  = head2 (field kv2 "headRotation" (JList [JInt 0; JInt 0; JInt 0]))
  /\ field kv1 "mouthOpen" (JInt 0) = field kv2 "mouthOpen" (JInt 0)
  /\ field kv1 "eyeBlinkLeft" (JInt 0) = field kv2 "eyeBlinkLeft" (JInt 0)
  /\ field kv1 "eyeBlinkRight" (JInt 0) = field kv2 "eyeBlinkRight" (JInt 0).

(** A 256 x 256 image of one colour. *)
Definition flat256 (px : list Z) : image := repeat (repeat px 256) 256.

(** A binary32 value between 0 and 1. *)
Definition unit32 (x : spec_float) : bool :=
  SFleb (S754_zero false) x && SFleb x (f32 1).

(** A runtime with onnxruntime and a GPU, where the model directory holds
    the two extractors and the stitching file, and the stitching session
    cannot be created. *)
Definition partial_runtime : runtime :=
  {| ort_available := true;
     get_available_providers :=
       Ok ["CUDAExecutionProvider"; "CPUExecutionProvider"];
     path_exists := fun p =>
       match p with
       | ["checkpoints"; "liveportrait_onnx"] => true
       | ["checkpoints"; "liveportrait_onnx"; f] =>
           negb (String.eqb f "landmark.onnx")
       | _ => false
       end;
     InferenceSession := fun p _ =>
       match p with
       | ["checkpoints"; "liveportrait_onnx"; "stitching.onnx"] =>
           Raise CvError
       | _ => Ok Fixtures.flaky
       end |}.

(** A runtime without onnxruntime. *)
Definition bare_runtime : runtime :=
  {| ort_available := false;
     get_available_providers := Raise AttributeError;
     path_exists := fun _ => false;
     InferenceSession := fun _ _ => Raise CvError |}.

(** An image of [h] rows of [w] pixels of [c] channel values in range. *)
Definition well_shaped (img : image) (h w c : nat) : Prop :=
  List.length img = h
  /\ forall row, In row img ->
       List.length row = w
       /\ forall px, In px row ->
            List.length px = c /\ forall p, In p px -> 0 <= p <= 255.

(** The image [_preprocess_image] works on: the image itself when it is
    256 x 256, what [cv2.resize] makes of it otherwise. *)
Definition canonical {cv : Cv2} (img : image) : res image :=
  if let '(h, w) := shape img in (h =? 256) && (w =? 256)
  then Ok img
  else resize img (256, 256).

(** The defaults of the five parameters [inference] asks for. *)
Definition motion_defaults : list (string * json) :=
  [("headRotation", JList [JInt 0; JInt 0; JInt 0]);
   ("mouthOpen", JInt 0);
   ("eyeBlinkLeft", JInt 0);
   ("eyeBlinkRight", JInt 0);
   ("smile", JInt 0)].

(** An event that ends the loop of the handler. *)
Definition closes (ev : Server.event) : bool :=
  match ev with
  | Server.Disconnect => true
  | Server.Text loaded => not_an_object loaded
  end.

(** The pipeline is there and ready, and it holds the reference the
    server holds. *)
Definition coherent (g : Server.globals) : Prop :=
  exists p,
    Server.pipeline g = Some p
    /\ is_ready p = true
    /\ Pipeline.reference_image p = Server.reference_image g.

(** The image of the last upload that could be decoded. *)
Definition last_reference {codec : Server.Codec} (reqs : list Life.request)
  : option image :=
  fold_left (fun acc r =>
               match r with
               | Life.Upload contents =>
                   match Server.load_reference contents with
                   | Ok img => Some img
                   | Raise _ => acc
                   end
               | _ => acc
               end) reqs None.

End More.
Export More.

(* ================================================================= *)
(** ** Properties of the methods *)

Ltac method_unfold :=
  unfold set_reference, inference, mbind, gets, assign, lift, ret, raise,
    try_except.

Section MethodFacts.

Context {cv : Cv2}.

(** [inference] writes no attribute. *)
Lemma inference_state (p : json) (self : LivePortraitPipeline) :
  snd (inference p self) = self.
Proof.
  method_unfold. cbv beta.
  destruct (Pipeline.reference_image self) eqn:Href; cbv beta iota;
    rewrite ?Href; reflexivity.
Qed.

(** Its result is the reference check followed by [synthesize] on the
    stored reference. *)
Lemma inference_result (p : json) (self : LivePortraitPipeline) :
  fst (inference p self) =
  match Pipeline.reference_image self with
  | None => Raise (ValueError "Reference image not set")
  | Some reference => synthesize reference p
  end.
Proof.
  method_unfold. cbv beta.
  destruct (Pipeline.reference_image self) eqn:Href; cbv beta iota;
    rewrite ?Href; reflexivity.
Qed.

Lemma inference_eq (p : json) (self : LivePortraitPipeline) :
  inference p self = (fst (inference p self), self).
Proof.
  rewrite <- (inference_state p self) at 3. apply surjective_pairing.
Qed.

(** [set_reference] returns normally and stores the image it is given. *)
Lemma set_reference_returns (img : image) (self : LivePortraitPipeline) :
  fst (set_reference img self) = Ok tt.
Proof.
  method_unfold. cbn.
  destruct (appearance_extractor self) as [ae|]; cbn;
    [destruct (appearance_features ae img); cbn|];
    (destruct (motion_extractor self) as [me|]; cbn;
     [destruct (extract me img); cbn|]); reflexivity.
Qed.

Lemma set_reference_stores (img : image) (self : LivePortraitPipeline) :
  Pipeline.reference_image (snd (set_reference img self)) = Some img.
Proof.
  method_unfold. cbn.
  destruct (appearance_extractor self) as [ae|]; cbn;
    [destruct (appearance_features ae img); cbn|];
    (destruct (motion_extractor self) as [me|]; cbn;
     [destruct (extract me img); cbn|]); reflexivity.
Qed.

(** The three stages of the frame computation on a dict of parameters. *)
Lemma synthesize_stages (reference : image) (kv : list (string * json)) :
  synthesize reference (JObj kv) =
  let field key default :=
    match dict_get kv key with Some v => v | None => default end in
  let '(h, w) := shape reference in
  M <- rotation_matrix h w
         (field "headRotation" (JList [JInt 0; JInt 0; JInt 0])) ;;
  warped <- warpAffine reference M (w, h) BORDER_REPLICATE ;;
  bright <- brightness_step warped (field "mouthOpen" (JInt 0)) ;;
  blink_step bright (field "eyeBlinkLeft" (JInt 0))
                    (field "eyeBlinkRight" (JInt 0)).
Proof. reflexivity. Qed.

(** With all parameters at zero, the matrix is that of angle 0 with a zero
    added to its vertical translation. *)
Lemma rotation_matrix_zero (h w : Z) :
  rotation_matrix h w (JList [JInt 0; JInt 0; JInt 0]) =
  let M := getRotationMatrix2D (w / 2, h / 2) 0 1 in
  Ok (set_m12 M (m12 M + 0)%float).
Proof. reflexivity. Qed.

Lemma identity_like_shift_zero (M : mat23) :
  identity_like M -> identity_like (set_m12 M (m12 M + 0)%float).
Proof.
  intros (H00 & H01 & H02 & H10 & H11 & H12).
  repeat split; cbn; try assumption.
  destruct H12 as [-> | ->]; left; reflexivity.
Qed.

Lemma brightness_step_zero (result : image) :
  brightness_step result (JInt 0) = Ok result.
Proof. reflexivity. Qed.

Lemma blink_step_zero (result : image) :
  blink_step result (JInt 0) (JInt 0) = Ok result.
Proof. reflexivity. Qed.

End MethodFacts.

Lemma set_reference_is_ready {cv : Cv2} (img : image)
  (self : LivePortraitPipeline) :
  is_ready (snd (set_reference img self)) = is_ready self.
Proof.
  method_unfold. cbn.
  destruct (appearance_extractor self) as [ae|]; cbn;
    [destruct (appearance_features ae img); cbn|];
    (destruct (motion_extractor self) as [me|]; cbn;
     [destruct (extract me img); cbn|]); reflexivity.
Qed.

Lemma zero_motion_synthesis {cv : Cv2} (self : LivePortraitPipeline)
  (img : image) :
  valid_image img = true ->
  rotation_by_zero_is_identity cv img ->
  identity_warp_copies cv img ->
  Pipeline.reference_image self = Some img ->
  inference zero_motion self = (Ok img, self).
Proof.
  intros Hvalid Hrot Hwarp Hstored.
  rewrite inference_eq, inference_result, Hstored. f_equal.
  unfold zero_motion. rewrite synthesize_stages.
  cbn -[rotation_matrix brightness_step blink_step shape].
  unfold rotation_by_zero_is_identity, identity_warp_copies in *.
  destruct (shape img) as [h w].
  rewrite rotation_matrix_zero. cbn -[brightness_step blink_step].
  rewrite (Hwarp Hvalid _ (identity_like_shift_zero _ Hrot)).
  cbn -[brightness_step blink_step].
  rewrite brightness_step_zero. cbn -[blink_step].
  apply blink_step_zero.
Qed.

(** C1. After [set_reference] has stored a valid image, [inference] with
    all-zero motion parameters returns that image unchanged: the matrix of
    the rotation step is the identity, so the warp copies the image, and
    neither the brightness step nor the blur step applies.  Through the
    gateway: after an upload has stored the resized image, the all-zero
    [motion] message is answered by the frame that encodes that image.
    What is taken from OpenCV is that its rotation matrix at angle 0 is
    the identity and that its warp by the identity copies a valid
    image. *)
Theorem zero_motion_returns_reference :
  forall (cv : Cv2) (img : image),
    valid_image img = true ->
    rotation_by_zero_is_identity cv img ->
    identity_warp_copies cv img ->
    (forall self : LivePortraitPipeline,
        let self' := snd (set_reference img self) in
        Pipeline.reference_image self' = Some img
        /\ inference zero_motion self' = (Ok img, self'))
    /\ (forall (codec : Server.Codec) (g : Server.globals)
               (p : LivePortraitPipeline) (contents data : string),
           Server.load_reference contents = Ok img ->
           Server.encode_frame img = Ok data ->
           Server.pipeline g = Some p ->
           is_ready p = true ->
           let g' := snd (Server.upload_reference contents g) in
           Server.reference_image g' = Some img
           /\ Server.on_text (Ok zero_motion_message) g'
              = ([Server.FrameMsg
                    (String.append "data:image/jpeg;base64," data)],
                 None, g')).
Proof.
  intros cv img Hvalid Hrot Hwarp. split.
  - intros self self'.
    assert (Hstored : Pipeline.reference_image self' = Some img)
      by apply set_reference_stores.
    split; [exact Hstored|].
    apply zero_motion_synthesis; assumption.
  - intros codec g p contents data Hload Hencode Hp Hready g'.
    subst g'. unfold Server.upload_reference. rewrite Hload.
    cbn [Server.pipeline Server.set_reference_image]. rewrite Hp, Hready.
    pose proof (set_reference_returns img p) as Hret.
    pose proof (set_reference_stores img p) as Hstored.
    pose proof (set_reference_is_ready img p) as Hready'.
    destruct (set_reference img p) as [r p']. cbn [fst snd] in *. subst r.
    cbn [snd]. split; [reflexivity|].
    unfold Server.on_text, zero_motion_message.
    cbn -[inference zero_motion String.append].
    rewrite Hready', Hready.
    rewrite (zero_motion_synthesis p' img Hvalid Hrot Hwarp Hstored).
    cbn [bind]. rewrite Hencode. reflexivity.
Qed.

(** The hypotheses of C1 hold for the executable instance on a 1 x 2
    image. *)
Lemma zero_motion_returns_reference_witness :
  (let self' := snd (set_reference (cv := Run.cv) Run.row2 Run.ready) in
   Pipeline.reference_image self' = Some Run.row2
   /\ inference (cv := Run.cv) zero_motion self' = (Ok Run.row2, self'))
  /\ (let g' := snd (Server.upload_reference (cv := Run.cv)
                       (codec := Run.codec) "010020030040050060"
                       Fixtures.serving) in
      Server.reference_image g' = Some Run.row2
      /\ Server.on_text (cv := Run.cv) (codec := Run.codec)
           (Ok zero_motion_message) g'
         = ([Server.FrameMsg "data:image/jpeg;base64,010020030040050060"],
            None, g')).
Proof.
  assert (Hrot : rotation_by_zero_is_identity Run.cv Run.row2).
  { unfold rotation_by_zero_is_identity, identity_like, zero_like.
    vm_compute. repeat split; auto. }
  assert (Hwarp : identity_warp_copies Run.cv Run.row2).
  { intros _ [a b c d e f] (H00 & H01 & H02 & H10 & H11 & H12).
    cbn in H00, H01, H02, H10, H11, H12. subst a e.
    destruct H01 as [-> | ->], H02 as [-> | ->], H10 as [-> | ->],
      H12 as [-> | ->]; vm_compute; reflexivity. }
  pose proof (zero_motion_returns_reference Run.cv Run.row2 eq_refl
                Hrot Hwarp) as [Hpipeline Hgateway].
  split.
  - apply Hpipeline.
  - apply (Hgateway Run.codec Fixtures.serving Run.ready
             "010020030040050060" "010020030040050060");
      reflexivity.
Defined.

(* ----------------------------------------------------------------- *)
(** *** The blink blur *)







(* ----------------------------------------------------------------- *)
(** *** The WebSocket handler *)

Section HandlerFacts.

Context {cv : Cv2} {codec : Server.Codec}.

Lemma set_discard_absent (x : nat) (s : list nat) :
  ~ In x (Server.set_discard x s).
Proof.
  unfold Server.set_discard. intros H. apply filter_In in H.
  destruct H as [_ H]. rewrite Nat.eqb_refl in H. discriminate.
Qed.

(** A [motion] message from a client that sent a JSON object: no
    exception leaves the loop body, one typed reply is sent, and the
    globals are as they were. *)
Lemma on_motion_dict (kv : list (string * json)) (g : Server.globals) :
  exists out,
    Server.on_motion (JObj kv) g = (out, None, g) /\ typed_reply out.
Proof.
  unfold Server.on_motion, typed_reply. cbn [py_get].
  destruct g as [[p|] clients [ref|]]; cbn -[inference];
    try (eexists; split; [reflexivity|]; eexists; split; [reflexivity|];
         right; right; reflexivity).
  destruct (is_ready p) eqn:Hready;
    [| eexists; split; [reflexivity|]; eexists; split; [reflexivity|];
       right; right; reflexivity].
  rewrite inference_eq.
  destruct (fst (inference _ p)) as [frame | e]; cbn.
  - destruct (Server.encode_frame frame) as [data | e]; cbn;
      (eexists; split; [reflexivity|]; eexists; split; [reflexivity|]);
      [left | right; left]; eexists; reflexivity.
  - eexists; split; [reflexivity|]. eexists; split; [reflexivity|].
    right; left; eexists; reflexivity.
Qed.

(** Any JSON object is handled without an exception leaving the body. *)
Lemma on_text_dict (kv : list (string * json)) (g : Server.globals) :
  exists out,
    Server.on_text (Ok (JObj kv)) g = (out, None, g)
    /\ (py_eq_str (match dict_get kv "type" with Some v => v | None => JNull end)
          "motion" = true -> typed_reply out).
Proof.
  unfold Server.on_text. cbn [py_get].
  destruct (py_eq_str _ "motion") eqn:Hmotion.
  - destruct (on_motion_dict kv g) as (out & Hout & Htyped).
    exists out. split; [exact Hout | intros _; exact Htyped].
  - destruct (py_eq_str _ "ping");
      eexists; (split; [reflexivity | discriminate]).
Qed.

(** A payload that is not a JSON object makes an exception leave the body
    before anything is sent. *)
Lemma on_text_not_an_object (loaded : res json) (g : Server.globals) :
  not_an_object loaded = true ->
  exists e, Server.on_text loaded g = ([], Some e, g).
Proof.
  destruct loaded as [[ | b | z | f | s | l | kv] | e]; cbn;
    try discriminate; intros _; eexists; reflexivity.
Qed.

End HandlerFacts.

(** C3, as stated, fails: on a payload that is not valid JSON, and on the
    payload [[]], the handler sends nothing and ends, although a [ping]
    was still to come. *)
Lemma malformed_payload_closes_handler :
  Server.serve (cv := Run.cv) (codec := Run.codec)
    [Server.Text (Raise JSONDecodeError);
     Server.Text (Ok (JObj [("type", JStr "ping")]))] Fixtures.serving
  = ([], Server.Closed, Fixtures.serving)
  /\ Server.serve (cv := Run.cv) (codec := Run.codec)
       [Server.Text (Ok (JList []));
        Server.Text (Ok (JObj [("type", JStr "ping")]))] Fixtures.serving
     = ([], Server.Closed, Fixtures.serving).
Proof. split; reflexivity. Qed.

(** C3, amended. For a received payload that is a JSON object, no
    exception leaves the loop body, whatever the shape of its fields: a
    [motion] message gets exactly one reply, a [frame], an [error]
    carrying the exception, or the [status] message, and the handler goes
    on.  A payload that is not valid JSON or not a JSON object gets no
    reply; the exception ends the loop and the connection is
    unregistered. *)
Theorem message_failures :
  forall (cv : Cv2) (codec : Server.Codec) (g : Server.globals),
    (forall kv : list (string * json),
        exists out,
          Server.on_text (Ok (JObj kv)) g = (out, None, g)
          /\ (py_eq_str
                (match dict_get kv "type" with Some v => v | None => JNull end)
                "motion" = true -> typed_reply out))
    /\ (forall (loaded : res json) (websocket : nat)
               (rest : list Server.event),
           not_an_object loaded = true ->
           exists g',
             Server.websocket_endpoint websocket (Server.Text loaded :: rest) g
             = ([], Server.Closed, g')
             /\ ~ In websocket (Server.connected_clients g')).
Proof.
  intros cv codec g. split.
  - intros kv. apply on_text_dict.
  - intros loaded websocket rest Hbad.
    unfold Server.websocket_endpoint. cbn [Server.serve].
    destruct (on_text_not_an_object loaded
                (Server.set_connected_clients
                   (Server.set_add websocket (Server.connected_clients g)) g)
                Hbad) as [e He].
    rewrite He. eexists. split; [reflexivity|].
    cbn. apply set_discard_absent.
Qed.

(** C3 at work on the executable instance: the payload [5] ends the
    handler of connection 7. *)
Lemma message_failures_witness :
  exists g',
    Server.websocket_endpoint (cv := Run.cv) (codec := Run.codec) 7%nat
      [Server.Text (Ok (JInt 5))] Fixtures.serving
    = ([], Server.Closed, g')
    /\ ~ In 7%nat (Server.connected_clients g').
Proof.
  apply (proj2 (message_failures Run.cv Run.codec Fixtures.serving)).
  reflexivity.
Defined.

(* ----------------------------------------------------------------- *)
(** *** Replacing the reference *)

Section ReferenceFacts.

Context {cv : Cv2}.



End ReferenceFacts.




(* ----------------------------------------------------------------- *)
(** *** The head rotation *)

Section RotationFacts.

Context {cv : Cv2}.

Lemma py_mul_int_number (v : json) (n : number) (k : Z) :
  as_number v = Some n ->
  py_mul_int v k
  = (scaled <- times n k ;;
     Ok (match scaled with NInt z => JInt z | NFloat f => JFloat f end)).
Proof.
  destruct v; cbn; intros H; try discriminate; injection H as <-; cbn;
    [reflexivity | reflexivity |].
  destruct (float_of_int k); reflexivity.
Qed.

(** On a head rotation whose pitch and yaw are numbers of any kind, the
    matrix is OpenCV's for the angle [-(yaw * 30)], with
    [pitch * 15 * 2] added to the entry [1, 2] and the five other entries
    untouched. *)
Lemma rotation_matrix_numbers (h w : Z) (pitch yaw : json)
  (rest : list json) (p y : number) (angle shift : float) :
  as_number pitch = Some p ->
  as_number yaw = Some y ->
  rotation_angle y = Ok angle ->
  pitch_shift p = Ok shift ->
  rotation_matrix h w (JList (pitch :: yaw :: rest)) =
  let M := getRotationMatrix2D (w / 2, h / 2) angle 1 in
  Ok {| m00 := m00 M; m01 := m01 M; m02 := m02 M;
        m10 := m10 M; m11 := m11 M; m12 := (m12 M + shift)%float |}.
Proof.
  intros Hp Hy Hangle Hshift. unfold rotation_matrix.
  cbn [py_index nth_error bind].
  rewrite (py_mul_int_number yaw y 30 Hy), (py_mul_int_number pitch p 15 Hp).
  unfold rotation_angle in Hangle. unfold pitch_shift in Hshift.
  destruct (times y 30) as [y30 | e]; [|discriminate]. cbn [bind] in *.
  destruct (times p 15) as [p15 | e]; [|discriminate]. cbn [bind] in *.
  assert (Hneg : py_neg (match y30 with
                         | NInt z => JInt z
                         | NFloat f => JFloat f
                         end)
                 = Ok (match negate y30 with
                       | NInt z => JInt z
                       | NFloat f => JFloat f
                       end))
    by (destruct y30; reflexivity).
  rewrite Hneg. cbn [bind].
  assert (Hdouble : forall n,
             to_double (match n with NInt z => JInt z | NFloat f => JFloat f end)
             = as_double n) by (intros [z | f]; reflexivity).
  rewrite Hdouble, Hangle. cbn [bind].
  rewrite (py_mul_int_number _ p15 2) by (destruct p15; reflexivity).
  destruct (times p15 2) as [p30 | e]; [|discriminate]. cbn [bind] in *.
  unfold np_add. rewrite Hdouble, Hshift. reflexivity.
Qed.

Lemma synthesize_fields (reference : image) (kv : list (string * json)) :
  synthesize reference (JObj kv) =
  let '(h, w) := shape reference in
  M <- rotation_matrix h w
         (field kv "headRotation" (JList [JInt 0; JInt 0; JInt 0])) ;;
  warped <- warpAffine reference M (w, h) BORDER_REPLICATE ;;
  expression_effects warped kv.
Proof. reflexivity. Qed.

Lemma inference_numbers (self : LivePortraitPipeline) (reference : image)
  (kv : list (string * json)) (pitch yaw : json) (rest : list json)
  (p y : number) (angle shift : float) :
  Pipeline.reference_image self = Some reference ->
  dict_get kv "headRotation" = Some (JList (pitch :: yaw :: rest)) ->
  as_number pitch = Some p ->
  as_number yaw = Some y ->
  rotation_angle y = Ok angle ->
  pitch_shift p = Ok shift ->
  fst (inference (JObj kv) self) = warp_then_effects reference angle shift kv.
Proof.
  intros Href Hhr Hp Hy Hangle Hshift.
  rewrite inference_result, Href, synthesize_fields.
  unfold warp_then_effects, field. rewrite Hhr.
  destruct (shape reference) as [h w].
  rewrite (rotation_matrix_numbers h w pitch yaw rest p y angle shift
             Hp Hy Hangle Hshift).
  reflexivity.
Qed.

End RotationFacts.

(** C5. With a reference set, the frame is the affine warp of the
    reference, borders replicated, followed by the expression effects; the
    matrix is OpenCV's rotation about [(w // 2, h // 2)] at scale 1 by the
    angle [-(yaw * 30)], with [pitch * 15 * 2] added to its entry [1, 2]
    and its other entries unchanged.  This holds for a pitch and a yaw
    that are numbers of any kind, integers, booleans or floats, alike or
    mixed, whatever follows them in the list; for floats the angle is the
    float [-(yaw * 30)] and the shift the float [pitch * 15 * 2]; for
    [headRotation = [0, 1, 0]] the angle is [-30] and the shift 0. *)
Theorem head_rotation_warp :
  forall (cv : Cv2) (self : LivePortraitPipeline) (reference : image)
         (kv : list (string * json)),
    Pipeline.reference_image self = Some reference ->
    (forall (pitch yaw : json) (rest : list json) (p y : number)
            (angle shift : float),
        dict_get kv "headRotation" = Some (JList (pitch :: yaw :: rest)) ->
        as_number pitch = Some p ->
        as_number yaw = Some y ->
        rotation_angle y = Ok angle ->
        pitch_shift p = Ok shift ->
        fst (inference (JObj kv) self)
        = warp_then_effects reference angle shift kv)
    /\ (forall (pitch yaw : float) (roll : json),
           dict_get kv "headRotation"
           = Some (JList [JFloat pitch; JFloat yaw; roll]) ->
           fst (inference (JObj kv) self)
           = warp_then_effects reference (- (yaw * 30))%float
               (pitch * 15 * 2)%float kv)
    /\ (forall (pitch yaw : Z) (roll : json) (angle shift : float),
           dict_get kv "headRotation"
           = Some (JList [JInt pitch; JInt yaw; roll]) ->
           float_of_int (- (yaw * 30)) = Ok angle ->
           float_of_int (pitch * 15 * 2) = Ok shift ->
           fst (inference (JObj kv) self)
           = warp_then_effects reference angle shift kv)
    /\ (forall (pitch : float) (yaw : Z) (roll : json) (angle : float),
           dict_get kv "headRotation"
           = Some (JList [JFloat pitch; JInt yaw; roll]) ->
           float_of_int (- (yaw * 30)) = Ok angle ->
           fst (inference (JObj kv) self)
           = warp_then_effects reference angle (pitch * 15 * 2)%float kv)
    /\ (forall (pitch : Z) (yaw : float) (roll : json) (shift : float),
           dict_get kv "headRotation"
           = Some (JList [JInt pitch; JFloat yaw; roll]) ->
           float_of_int (pitch * 15 * 2) = Ok shift ->
           fst (inference (JObj kv) self)
           = warp_then_effects reference (- (yaw * 30))%float shift kv)
    /\ (dict_get kv "headRotation" = Some (JList [JInt 0; JInt 1; JInt 0]) ->
        fst (inference (JObj kv) self)
        = warp_then_effects reference (-30)%float 0%float kv).
Proof.
  intros cv self reference kv Href.
  split; [|split; [|split; [|split; [|split]]]].
  - intros pitch yaw rest p y angle shift Hhr Hp Hy Hangle Hshift.
    exact (inference_numbers self reference kv pitch yaw rest p y angle
             shift Href Hhr Hp Hy Hangle Hshift).
  - intros pitch yaw roll Hhr.
    apply (inference_numbers self reference kv _ _ _ (NFloat pitch)
             (NFloat yaw) _ _ Href Hhr); reflexivity.
  - intros pitch yaw roll angle shift Hhr Hangle Hshift.
    apply (inference_numbers self reference kv _ _ _ (NInt pitch)
             (NInt yaw) _ _ Href Hhr); try reflexivity; assumption.
  - intros pitch yaw roll angle Hhr Hangle.
    apply (inference_numbers self reference kv _ _ _ (NFloat pitch)
             (NInt yaw) _ _ Href Hhr); try reflexivity; assumption.
  - intros pitch yaw roll shift Hhr Hshift.
    apply (inference_numbers self reference kv _ _ _ (NInt pitch)
             (NFloat yaw) _ _ Href Hhr); try reflexivity; assumption.
  - intros Hhr.
    apply (inference_numbers self reference kv _ _ _ (NInt 0) (NInt 1)
             _ _ Href Hhr); reflexivity.
Qed.

(** C5 at work: an integer pitch of 1 with a float yaw of 0 on the 2 x 2
    image.  The shift of 30 rows moves the image down past its height, so
    the replicated border fills the frame with the first row. *)
Lemma head_rotation_warp_witness :
  let kv := [("headRotation", JList [JInt 1; JFloat 0; JInt 0])] in
  let self := Pipeline.set_reference_image (Some Run.img2) Run.ready in
  fst (inference (cv := Run.cv) (JObj kv) self)
  = warp_then_effects (cv := Run.cv) Run.img2 (- (0 * 30))%float 30%float kv
  /\ warp_then_effects (cv := Run.cv) Run.img2 (- (0 * 30))%float 30%float kv
     = Ok [ [ [10; 20; 30]; [40; 50; 60] ];
            [ [10; 20; 30]; [40; 50; 60] ] ].
Proof.
  intros kv self. split.
  - apply (proj1 (proj2 (proj2 (proj2 (proj2
             (head_rotation_warp Run.cv self Run.img2 kv eq_refl)))))
             1 0%float (JInt 0) 30%float);
      reflexivity.
  - vm_compute. reflexivity.
Defined.

(* ----------------------------------------------------------------- *)
(** *** The mouth-open brightness *)

Section BrightnessFacts.

Context {cv : Cv2}.

Lemma brightness_step_float (result : image) (m : float) :
  brightness_step result (JFloat m) =
  Ok (if (0.1 <? m)%float
      then map_pixels (scale_channel (1 + m * 0.05)%float) result
      else result).
Proof.
  unfold brightness_step. cbn [py_gt_float bind].
  destruct (0.1 <? m)%float; reflexivity.
Qed.

(** An integer is greater than 0.1 when it is positive. *)
Lemma int_gt_tenth (z : Z) : int_gt_float z 0.1 = (0 <? z).
Proof.
  unfold int_gt_float.
  change (Prim2SF 0.1) with (S754_finite false 7205759403792794 (-56)).
  cbn [Z.leb Z.compare Z.opp]. rewrite Z.shiftl_mul_pow2 by lia.
  change (2 ^ 56) with 72057594037927936.
  destruct (Z.ltb_spec 0 z); destruct (Z.ltb_spec 7205759403792794
                                         (z * 72057594037927936));
    try reflexivity; lia.
Qed.

Lemma brightness_step_int (result : image) (z : Z) :
  brightness_step result (JInt z) =
  if 0 <? z
  then (zf <- float_of_int z ;;
        Ok (map_pixels (scale_channel (1 + zf * 0.05)%float) result))
  else Ok result.
Proof.
  unfold brightness_step. cbn [py_gt_float bind]. rewrite int_gt_tenth.
  destruct (0 <? z); [|reflexivity].
  unfold py_mul_float. cbn [to_double].
  destruct (float_of_int z); reflexivity.
Qed.

(** At [mouthOpen = 0.2] the 256 channel values, one by one. *)
Lemma scale_channel_table :
  forallb (fun p => scale_channel (1 + 0.2 * 0.05)%float p =? brighten_101 p)
          (Run.zrange 256) = true.
Proof. vm_compute. reflexivity. Qed.

Lemma scale_channel_101 (p : Z) :
  0 <= p <= 255 ->
  scale_channel (1 + 0.2 * 0.05)%float p = brighten_101 p.
Proof.
  intros Hp. apply Z.eqb_eq.
  apply (proj1 (forallb_forall _ _) scale_channel_table).
  unfold Run.zrange. apply in_map_iff. exists (Z.to_nat p).
  split; [lia|]. apply in_seq. lia.
Qed.

Lemma map_pixels_ext (f g : Z -> Z) (img : image) :
  (forall row px p, In row img -> In px row -> In p px -> f p = g p) ->
  map_pixels f img = map_pixels g img.
Proof.
  intros H. unfold map_pixels.
  apply map_ext_in. intros row Hrow.
  apply map_ext_in. intros px Hpx.
  apply map_ext_in. intros p Hp. exact (H row px p Hrow Hpx Hp).
Qed.

End BrightnessFacts.

Lemma map_pixels_pixelwise (f : Z -> Z) (img : image) :
  pixelwise f img (map_pixels f img).
Proof.
  unfold pixelwise, map_pixels. split; [apply length_map|].
  intros i Hi.
  rewrite (nth_indep _ [] (map (map f) [])) by (rewrite length_map; exact Hi).
  rewrite (map_nth (map (map f))). split; [apply length_map|].
  intros j Hj.
  rewrite (nth_indep _ [] (map f [])) by (rewrite length_map; exact Hj).
  rewrite (map_nth (map f)). split; [apply length_map|].
  intros k Hk.
  rewrite (nth_indep _ 0 (f 0)) by (rewrite length_map; exact Hk).
  apply (map_nth f).
Qed.

(** C6. Once the reference has been warped, the brightness step acts on
    the warped frame and the blur step follows.  When [mouthOpen > 0.1]
    the frame handed to the blur has the rows, pixels and channels of the
    warped frame, and at every place its channel value is the value [p]
    of the warped frame times [1.0 + mouthOpen * 0.05], clipped to
    [0, 255] and cast to 8 bits; otherwise it is the warped frame itself.
    For an integer [mouthOpen] the test holds from 1 on.  At
    [mouthOpen = 0.2] each channel value in range becomes the integer part
    of [clamp(p * 1.01, 0, 255)]. *)
Theorem mouth_open_brightness :
  forall (cv : Cv2) (reference warped : image) (kv : list (string * json))
         (M : mat23),
    rotation_matrix (fst (shape reference)) (snd (shape reference))
      (field kv "headRotation" (JList [JInt 0; JInt 0; JInt 0])) = Ok M ->
    warpAffine reference M (snd (shape reference), fst (shape reference))
      BORDER_REPLICATE = Ok warped ->
    let blur frame :=
      blink_step frame (field kv "eyeBlinkLeft" (JInt 0))
                       (field kv "eyeBlinkRight" (JInt 0)) in
    (forall m : float,
        dict_get kv "mouthOpen" = Some (JFloat m) ->
        ((0.1 <? m)%float = true ->
         exists bright,
           synthesize reference (JObj kv) = blur bright
           /\ pixelwise
                (fun p => astype_uint8
                            (clip (float_of_uint8 p * (1 + m * 0.05))%float
                                  0 255))
                warped bright)
        /\ ((0.1 <? m)%float = false ->
            synthesize reference (JObj kv) = blur warped))
    /\ (forall z : Z,
           dict_get kv "mouthOpen" = Some (JInt z) ->
           z <= 0 ->
           synthesize reference (JObj kv) = blur warped)
    /\ (forall (z : Z) (zf : float),
           dict_get kv "mouthOpen" = Some (JInt z) ->
           1 <= z ->
           float_of_int z = Ok zf ->
           exists bright,
             synthesize reference (JObj kv) = blur bright
             /\ pixelwise
                  (fun p => astype_uint8
                              (clip (float_of_uint8 p * (1 + zf * 0.05))%float
                                    0 255))
                  warped bright)
    /\ (dict_get kv "mouthOpen" = Some (JFloat 0.2) ->
        pixels_in_range warped ->
        exists bright,
          synthesize reference (JObj kv) = blur bright
          /\ pixelwise brighten_101 warped bright).
Proof.
  intros cv reference warped kv M HM Hwarp blur. subst blur.
  rewrite synthesize_fields. unfold expression_effects.
  destruct (shape reference) as [h w]. cbn [fst snd] in HM, Hwarp.
  rewrite HM. cbn [bind]. rewrite Hwarp. cbn [bind].
  split; [|split; [|split]].
  - intros m Hm. split.
    + intros Hgt. unfold field at 1. rewrite Hm, brightness_step_float.
      cbn [bind].
      exists (map_pixels
                (fun p => astype_uint8
                            (clip (float_of_uint8 p * (1 + m * 0.05))%float
                                  0 255)) warped).
      split; [rewrite Hgt; reflexivity | apply map_pixels_pixelwise].
    + intros Hle. unfold field at 1. rewrite Hm, brightness_step_float, Hle.
      reflexivity.
  - intros z Hz Hle. unfold field at 1. rewrite Hz, brightness_step_int.
    destruct (Z.ltb_spec 0 z); [lia | reflexivity].
  - intros z zf Hz Hge Hzf. unfold field at 1.
    rewrite Hz, brightness_step_int, Hzf.
    destruct (Z.ltb_spec 0 z); [|lia]. cbn [bind].
    exists (map_pixels
              (fun p => astype_uint8
                          (clip (float_of_uint8 p * (1 + zf * 0.05))%float
                                0 255)) warped).
    split; [reflexivity | apply map_pixels_pixelwise].
  - intros Hm Hrange. unfold field at 1. rewrite Hm, brightness_step_float.
    change (0.1 <? 0.2)%float with true. cbn [bind].
    rewrite (map_pixels_ext (scale_channel (1 + 0.2 * 0.05)%float)
               brighten_101 warped).
    + exists (map_pixels brighten_101 warped).
      split; [reflexivity | apply map_pixels_pixelwise].
    + intros row px p Hrow Hpx Hp. apply scale_channel_101.
      exact (Hrange row px p Hrow Hpx Hp).
Qed.

(** C6 at work: [mouthOpen = 0.2] on the 2 x 2 image, no rotation.  The
    channel values 100, 200 and 250 become 101, 202 and 252; the values
    below 100 keep their integer part. *)
Lemma mouth_open_brightness_witness :
  exists bright,
    synthesize (cv := Run.cv) Run.img2 (JObj [("mouthOpen", JFloat 0.2)])
    = blink_step (cv := Run.cv) bright (JInt 0) (JInt 0)
    /\ pixelwise brighten_101 Run.img2 bright
    /\ bright = [ [ [10; 20; 30]; [40; 50; 60] ];
                  [ [70; 80; 90]; [101; 202; 252] ] ].
Proof.
  assert (Hrange : pixels_in_range Run.img2).
  { unfold pixels_in_range, Run.img2. cbn. intros row px p Hrow Hpx Hp.
    repeat match goal with
           | H : _ \/ _ |- _ => destruct H
           | H : False |- _ => destruct H
           end; subst; cbn in *;
    repeat match goal with
           | H : _ \/ _ |- _ => destruct H
           | H : False |- _ => destruct H
           end; subst; cbn in *;
    repeat match goal with
           | H : _ \/ _ |- _ => destruct H
           | H : False |- _ => destruct H
           end; subst; lia. }
  assert (HM : rotation_matrix (cv := Run.cv)
                 (fst (shape Run.img2)) (snd (shape Run.img2))
                 (field [("mouthOpen", JFloat 0.2)] "headRotation"
                    (JList [JInt 0; JInt 0; JInt 0]))
               = Ok {| m00 := 1; m01 := 0; m02 := 0;
                       m10 := (-0); m11 := 1; m12 := 0 |})
    by (vm_compute; reflexivity).
  assert (Hwarp : warpAffine (Cv2 := Run.cv) Run.img2
                    {| m00 := 1; m01 := 0; m02 := 0;
                       m10 := (-0); m11 := 1; m12 := 0 |}
                    (snd (shape Run.img2), fst (shape Run.img2))
                    BORDER_REPLICATE
                  = Ok Run.img2)
    by (vm_compute; reflexivity).
  destruct (proj2 (proj2 (proj2
              (mouth_open_brightness Run.cv Run.img2 Run.img2
                 [("mouthOpen", JFloat 0.2)] _ HM Hwarp)))
             eq_refl Hrange) as (bright & Hsyn & Hpix).
  exists bright. split; [exact Hsyn|]. split; [exact Hpix|].
  assert (Hvalue :
            synthesize (cv := Run.cv) Run.img2
              (JObj [("mouthOpen", JFloat 0.2)])
            = Ok [ [ [10; 20; 30]; [40; 50; 60] ];
                   [ [70; 80; 90]; [101; 202; 252] ] ])
    by (vm_compute; reflexivity).
  rewrite Hvalue in Hsyn. cbn in Hsyn. injection Hsyn as <-. reflexivity.
Defined.

(* ----------------------------------------------------------------- *)
(** *** Statelessness *)

Section StatelessFacts.

Context {cv : Cv2}.

Lemma after_inferences_same (calls : list json) (self : LivePortraitPipeline) :
  after_inferences calls self = self.
Proof.
  unfold after_inferences. revert self.
  induction calls as [|q calls IH]; intros self; cbn [fold_left].
  - reflexivity.
  - rewrite inference_state. apply IH.
Qed.

Lemma synthesize_ignores_smile (reference : image)
  (kv1 kv2 : list (string * json)) :
  same_but_smile kv1 kv2 ->
  synthesize reference (JObj kv1) = synthesize reference (JObj kv2).
Proof.
  intros Hsame. rewrite !synthesize_fields.
  unfold expression_effects, field.
  rewrite (Hsame "headRotation"), (Hsame "mouthOpen"),
    (Hsame "eyeBlinkLeft"), (Hsame "eyeBlinkRight") by discriminate.
  reflexivity.
Qed.

End StatelessFacts.

(** C7. [inference] is a function of the stored reference and of the
    motion parameters: a call leaves every attribute of the pipeline as it
    was, its result is computed from the stored reference image alone, and
    after any sequence of [inference] calls the same parameters give the
    same result and the same state. *)
Theorem inference_is_stateless :
  forall (cv : Cv2) (self : LivePortraitPipeline) (p : json)
         (before between : list json),
    snd (inference p self) = self
    /\ fst (inference p self)
       = match Pipeline.reference_image self with
         | None => Raise ReferenceNotSetError
         | Some reference => synthesize reference p
         end
    /\ after_inferences (before ++ p :: between) self = self
    /\ inference p (after_inferences before self)
       = inference p (after_inferences (before ++ p :: between) self).
Proof.
  intros cv self p before between.
  split; [apply inference_state|].
  split; [apply inference_result|].
  split; [apply after_inferences_same|].
  rewrite !after_inferences_same. reflexivity.
Qed.

(* ----------------------------------------------------------------- *)
(** *** Inference without a reference *)

(** C8. Without a stored reference, [inference] raises the
    reference-not-set error, whatever the parameters, and leaves the
    pipeline as it was.  In the gateway, a [motion] message received while
    no reference is set gets exactly one reply, the [status] message or
    the [error] message carrying that exception; no exception leaves the
    loop body and the globals are unchanged. *)
Theorem inference_without_reference :
  forall (cv : Cv2) (codec : Server.Codec),
    (forall (self : LivePortraitPipeline) (p : json),
        Pipeline.reference_image self = None ->
        inference p self = (Raise ReferenceNotSetError, self))
    /\ (forall (g : Server.globals) (kv : list (string * json)),
           reference_missing g ->
           dict_get kv "type" = Some (JStr "motion") ->
           Server.on_text (Ok (JObj kv)) g
           = ([Server.StatusMsg "Pipeline not ready or reference not loaded"],
              None, g)
           \/ Server.on_text (Ok (JObj kv)) g
              = ([Server.ErrorMsg ReferenceNotSetError], None, g)).
Proof.
  intros cv codec. split.
  - intros self p Href. rewrite inference_eq, inference_result, Href.
    reflexivity.
  - intros g kv Hmissing Htype.
    unfold Server.on_text. cbn [py_get]. rewrite Htype.
    cbn [py_eq_str String.eqb Ascii.eqb Bool.eqb].
    unfold Server.on_motion. cbn [py_get].
    destruct g as [[pl|] clients [ref|]]; cbn -[inference];
      try (left; reflexivity).
    destruct (is_ready pl); [|left; reflexivity].
    destruct Hmissing as [Hnone | (pl' & Hpl & Href)];
      [discriminate|].
    cbn in Hpl. injection Hpl as <-.
    rewrite inference_eq, inference_result, Href. right. reflexivity.
Qed.

(** C8 at work: a pipeline without reference, and a gateway whose
    pipeline has none while its own global is set. *)
Lemma inference_without_reference_witness :
  inference (cv := Run.cv) zero_motion Run.ready
  = (Raise ReferenceNotSetError, Run.ready)
  /\ (let g := {| Server.pipeline := Some Run.ready;
                  Server.connected_clients := [];
                  Server.reference_image := Some Run.img2 |} in
      let kv := [("type", JStr "motion")] in
      Server.on_text (cv := Run.cv) (codec := Run.codec) (Ok (JObj kv)) g
      = ([Server.StatusMsg "Pipeline not ready or reference not loaded"],
         None, g)
      \/ Server.on_text (cv := Run.cv) (codec := Run.codec) (Ok (JObj kv)) g
         = ([Server.ErrorMsg ReferenceNotSetError], None, g)).
Proof.
  split.
  - apply (proj1 (inference_without_reference Run.cv Run.codec)).
    reflexivity.
  - apply (proj2 (inference_without_reference Run.cv Run.codec)).
    + right. exists Run.ready. split; reflexivity.
    + reflexivity.
Defined.

(* ----------------------------------------------------------------- *)
(** *** The smile parameter *)

(** C10. Two motion records that agree on every key but ["smile"] give
    the same result and the same state, whatever the stored reference. *)
Theorem smile_is_ignored :
  forall (cv : Cv2) (self : LivePortraitPipeline)
         (kv1 kv2 : list (string * json)),
    same_but_smile kv1 kv2 ->
    inference (JObj kv1) self = inference (JObj kv2) self.
Proof.
  intros cv self kv1 kv2 Hsame.
  rewrite (inference_eq (JObj kv1)), (inference_eq (JObj kv2)).
  rewrite !inference_result.
  destruct (Pipeline.reference_image self) as [reference|]; [|reflexivity].
  rewrite (synthesize_ignores_smile reference kv1 kv2 Hsame). reflexivity.
Qed.

(** C10 at work: a smile of 1 against no smile at all. *)
Lemma smile_is_ignored_witness :
  inference (cv := Run.cv)
    (JObj [("smile", JFloat 1); ("mouthOpen", JFloat 0.2)])
    (Pipeline.set_reference_image (Some Run.img2) Run.ready)
  = inference (cv := Run.cv)
      (JObj [("mouthOpen", JFloat 0.2)])
      (Pipeline.set_reference_image (Some Run.img2) Run.ready).
Proof.
  apply smile_is_ignored.
  intros key Hkey. cbn [dict_get].
  destruct (String.eqb_spec "smile" key) as [Heq | _];
    [congruence | reflexivity].
Defined.

(* ----------------------------------------------------------------- *)
(** *** Replacing the reference while frames are being computed *)

Section Interleavings.

Context {cv : Cv2}.

Variable img : image.
Variable old : LivePortraitPipeline.
Variable params : nat -> json.

Lemma sched_inv_start :
  Sched.sched_inv img old params (Sched.start old params).
Proof.
  split.
  - left. split; reflexivity.
  - intros i. reflexivity.
Qed.

Lemma writer_step_reference (w : Sched.writer) (s : LivePortraitPipeline) :
  w <> Sched.W0 ->
  fst (Sched.writer_step img w s) <> Sched.W0
  /\ Pipeline.reference_image (snd (Sched.writer_step img w s))
     = Pipeline.reference_image s.
Proof.
  intros Hw. destruct w as [ | | | outputs | ]; cbn.
  - contradiction.
  - destruct (appearance_extractor s) as [sess|];
      [destruct (appearance_features sess img)|]; cbn;
      split; (discriminate || reflexivity).
  - destruct (motion_extractor s) as [sess|];
      [destruct (extract sess img)|]; cbn;
      split; (discriminate || reflexivity).
  - split; [discriminate | reflexivity].
  - split; [discriminate | reflexivity].
Qed.

Lemma sched_inv_writer (c : Sched.config) :
  Sched.sched_inv img old params c ->
  Sched.sched_inv img old params (Sched.step img 0 c).
Proof.
  intros [Href Hreaders]. unfold Sched.step.
  destruct (Sched.writer_step img (Sched.wr c) (Sched.shared c))
    as [w' s'] eqn:Hstep.
  assert (Hnew : Sched.wr c <> Sched.W0 ->
                 w' <> Sched.W0
                 /\ Pipeline.reference_image s'
                    = Pipeline.reference_image (Sched.shared c)).
  { intros Hw. pose proof (writer_step_reference _ (Sched.shared c) Hw) as H.
    rewrite Hstep in H. exact H. }
  destruct Href as [[Hw Hsame] | [Hw Himg]].
  - rewrite Hw in Hstep. cbn in Hstep. injection Hstep as <- <-.
    split.
    + right. split; [discriminate | reflexivity].
    + intros i. specialize (Hreaders i). unfold Sched.reader_ok in *. cbn.
      destruct (Sched.readers c i); try assumption.
      split; [apply Hreaders | discriminate].
  - destruct (Hnew Hw) as [Hw' Href'].
    split.
    + right. split; [exact Hw' | cbn; congruence].
    + intros i. specialize (Hreaders i). unfold Sched.reader_ok in *. cbn.
      destruct (Sched.readers c i); try assumption.
      rewrite Href'. exact Hreaders.
Qed.

Lemma sched_inv_reader (c : Sched.config) (i : nat) :
  Sched.sched_inv img old params c ->
  Sched.sched_inv img old params (Sched.step img (S i) c).
Proof.
  intros [Href Hreaders]. split; [exact Href|].
  intros j. unfold Sched.reader_ok.
  cbn [Sched.step Sched.readers Sched.shared].
  destruct (Nat.eqb_spec j i) as [-> | Hne]; [|apply Hreaders].
  specialize (Hreaders i). unfold Sched.reader_ok in Hreaders.
  rewrite !inference_result, set_reference_stores in *.
  destruct (Sched.readers c i) as [p | p | r]; cbn [Sched.reader_step].
  - subst p.
    destruct (Pipeline.reference_image (Sched.shared c)) as [x|] eqn:Hx.
    + split; [reflexivity | discriminate].
    + left. destruct Href as [[_ Hsame] | [_ Himg]]; [|congruence].
      rewrite <- Hsame, Hx. reflexivity.
  - destruct Hreaders as [-> Hset].
    destruct (Pipeline.reference_image (Sched.shared c)) as [x|] eqn:Hx;
      [|contradiction].
    destruct Href as [[_ Hsame] | [_ Himg]].
    + left. rewrite <- Hsame, Hx. reflexivity.
    + right. congruence.
  - exact Hreaders.
Qed.

Lemma sched_inv_run (schedule : list nat) (c : Sched.config) :
  Sched.sched_inv img old params c ->
  Sched.sched_inv img old params (Sched.run img schedule c).
Proof.
  unfold Sched.run. revert c.
  induction schedule as [|tid schedule IH]; intros c Hc; cbn [fold_left].
  - exact Hc.
  - apply IH. destruct tid as [|i];
      [apply sched_inv_writer | apply sched_inv_reader]; exact Hc.
Qed.

(** Run without interruption, the steps of the writer are
    [set_reference]. *)
Lemma writer_steps_are_set_reference :
  Sched.shared (Sched.run img [0; 0; 0; 0]%nat (Sched.start old params))
  = snd (set_reference img old)
  /\ Sched.wr (Sched.run img [0; 0; 0; 0]%nat (Sched.start old params))
     = Sched.WDone.
Proof.
  method_unfold. cbn.
  destruct (appearance_extractor old) as [ae|]; cbn;
    [destruct (appearance_features ae img); cbn|];
    (destruct (motion_extractor old) as [me|]; cbn;
     [destruct (extract me img); cbn|]); split; reflexivity.
Qed.

(** Run without interruption, the steps of a reader are [inference]. *)
Lemma reader_steps_are_inference (i : nat) :
  Sched.readers (Sched.run img [S i; S i] (Sched.start old params)) i
  = Sched.RDone (fst (inference (params i) old)).
Proof.
  rewrite inference_result. cbn. rewrite !Nat.eqb_refl.
  destruct (Pipeline.reference_image old) eqn:Href; cbn; rewrite ?Href;
    reflexivity.
Qed.

End Interleavings.

(** C9. Take one [set_reference] call and any number of [inference]
    calls, cut at every access to the pipeline object, and run them under
    any schedule.  Whatever a finished [inference] call returns is what
    [inference] returns on the state before the [set_reference] call, or
    what it returns on the state after it: no frame is computed from a mix
    of the two.  Run alone, the steps of each call are the call itself. *)
Theorem reference_replacement_is_atomic :
  forall (cv : Cv2) (img : image) (old : LivePortraitPipeline)
         (params : nat -> json),
    let new := snd (set_reference img old) in
    (forall (schedule : list nat) (i : nat) (r : res image),
        Sched.readers (Sched.run img schedule (Sched.start old params)) i
        = Sched.RDone r ->
        r = fst (inference (params i) old)
        \/ r = fst (inference (params i) new))
    /\ Sched.shared (Sched.run img [0; 0; 0; 0]%nat (Sched.start old params))
       = new
    /\ (forall i : nat,
           Sched.readers (Sched.run img [S i; S i] (Sched.start old params)) i
           = Sched.RDone (fst (inference (params i) old))).
Proof.
  intros cv img old params new. split; [|split].
  - intros schedule i r Hdone.
    destruct (sched_inv_run img old params schedule _
                (sched_inv_start img old params)) as [_ Hreaders].
    specialize (Hreaders i). unfold Sched.reader_ok in Hreaders.
    rewrite Hdone in Hreaders. exact Hreaders.
  - apply writer_steps_are_set_reference.
  - apply reader_steps_are_inference.
Qed.

(** C9 at work: a reader passes its check on the first reference, the
    writer then runs to its end, and the reader copies the second
    reference; its frame is the one of the new state. *)
Lemma reference_replacement_is_atomic_witness :
  let old := Pipeline.set_reference_image (Some Run.img2') Run.ready in
  let new := snd (set_reference (cv := Run.cv) Run.img2 old) in
  Sched.readers
    (Sched.run (cv := Run.cv) Run.img2 [1; 0; 0; 0; 1]%nat
       (Sched.start old (fun _ => zero_motion))) 0%nat
  = Sched.RDone (Ok Run.img2)
  /\ (Ok Run.img2 = fst (inference (cv := Run.cv) zero_motion old)
      \/ Ok Run.img2 = fst (inference (cv := Run.cv) zero_motion new)).
Proof.
  intros old new. split; [vm_compute; reflexivity|].
  apply (proj1 (reference_replacement_is_atomic Run.cv Run.img2 old
                  (fun _ => zero_motion))
           [1; 0; 0; 0; 1]%nat 0%nat (Ok Run.img2)).
  vm_compute. reflexivity.
Defined.

(* ================================================================= *)
(** ** Further properties: loading the models *)

Ltac loading_unfold :=
  cbv beta iota zeta
      delta [load_models _load_onnx_models mbind gets assign lift ret raise
             try_except CHECKPOINT_DIR app fst snd].

Ltac split_cases :=
  repeat match goal with
         | |- context [match ?x with _ => _ end] =>
             match type of x with
             | bool => destruct x eqn:?
             | res _ => destruct x eqn:?
             end; cbv beta iota zeta
         end.

Lemma load_models_returns (rt : runtime) (self : LivePortraitPipeline) :
  fst (load_models rt self) = Ok tt
  /\ is_ready (snd (load_models rt self)) = true
  /\ Pipeline.reference_image (snd (load_models rt self))
     = Pipeline.reference_image self.
Proof.
  loading_unfold. split_cases; repeat split; reflexivity.
Qed.

(** X1. However the loading goes (no onnxruntime, no provider list, no model
    directory, a session that cannot be created), [load_models] returns
    normally and the pipeline is ready afterwards. *)
Theorem load_models_always_ready :
  forall (rt : runtime) (self : LivePortraitPipeline),
    fst (load_models rt self) = Ok tt
    /\ is_ready (snd (load_models rt self)) = true.
Proof.
  intros rt self.
  destruct (load_models_returns rt self) as (Hret & Hready & _).
  split; assumption.
Qed.

(** X2. [load_models] never touches the stored reference, the cached features
    or the warping module: the warping stage is never loaded. *)
Theorem load_models_frame :
  forall (rt : runtime) (self : LivePortraitPipeline),
    let self' := snd (load_models rt self) in
    Pipeline.reference_image self' = Pipeline.reference_image self
    /\ generator_input self' = generator_input self
    /\ source_kp self' = source_kp self
    /\ source_rotation self' = source_rotation self
    /\ warping_module self' = warping_module self.
Proof.
  intros rt self. loading_unfold. split_cases; repeat split; reflexivity.
Qed.

(** X3. The device: ["cuda"] exactly when onnxruntime is importable and lists
    the CUDA provider, ["cpu"] when it lists the providers without it, and
    left as it was when onnxruntime is missing or the listing fails. *)
Theorem load_models_device :
  forall (rt : runtime) (self : LivePortraitPipeline),
    device (snd (load_models rt self))
    = if ort_available rt then
        match get_available_providers rt with
        | Ok available =>
            if existsb (String.eqb "CUDAExecutionProvider") available
            then "cuda" else "cpu"
        | Raise _ => device self
        end
      else device self.
Proof.
  intros rt self. loading_unfold. split_cases; reflexivity.
Qed.

Lemma load_models_no_directory (rt : runtime) (self : LivePortraitPipeline) :
  path_exists rt ["checkpoints"; "liveportrait_onnx"] = false ->
  let self' := snd (load_models rt self) in
  appearance_extractor self' = appearance_extractor self
  /\ motion_extractor self' = motion_extractor self
  /\ stitching_module self' = stitching_module self
  /\ landmark_detector self' = landmark_detector self.
Proof.
  intros Hdir. loading_unfold. rewrite Hdir.
  split_cases; repeat split; reflexivity.
Qed.

(** X4. With onnxruntime, a provider list and the model directory, and when
    the session of every model file that exists can be created: a slot
    whose file exists holds the session created from that file with the
    chosen providers, a slot whose file is missing keeps what it held and
    no session is asked for it.  Without the model directory no slot
    changes. *)
Theorem load_models_slots :
  forall (rt : runtime) (self : LivePortraitPipeline)
         (available : list string) (sa sm ss sl : session),
    ort_available rt = true ->
    get_available_providers rt = Ok available ->
    let providers :=
      if existsb (String.eqb "CUDAExecutionProvider") available
      then ["CUDAExecutionProvider"; "CPUExecutionProvider"]
      else ["CPUExecutionProvider"] in
    let file name := ["checkpoints"; "liveportrait_onnx"; name] in
    let self' := snd (load_models rt self) in
    (path_exists rt ["checkpoints"; "liveportrait_onnx"] = false ->
     appearance_extractor self' = appearance_extractor self
     /\ motion_extractor self' = motion_extractor self
     /\ stitching_module self' = stitching_module self
     /\ landmark_detector self' = landmark_detector self)
    /\ (path_exists rt ["checkpoints"; "liveportrait_onnx"] = true ->
        (path_exists rt (file "appearance_feature_extractor.onnx") = true ->
         InferenceSession rt (file "appearance_feature_extractor.onnx")
           providers = Ok sa) ->
        (path_exists rt (file "motion_extractor.onnx") = true ->
         InferenceSession rt (file "motion_extractor.onnx") providers
         = Ok sm) ->
        (path_exists rt (file "stitching.onnx") = true ->
         InferenceSession rt (file "stitching.onnx") providers = Ok ss) ->
        (path_exists rt (file "landmark.onnx") = true ->
         InferenceSession rt (file "landmark.onnx") providers = Ok sl) ->
        appearance_extractor self'
        = (if path_exists rt (file "appearance_feature_extractor.onnx")
           then Some sa else appearance_extractor self)
        /\ motion_extractor self'
           = (if path_exists rt (file "motion_extractor.onnx")
              then Some sm else motion_extractor self)
        /\ stitching_module self'
           = (if path_exists rt (file "stitching.onnx")
              then Some ss else stitching_module self)
        /\ landmark_detector self'
           = (if path_exists rt (file "landmark.onnx")
              then Some sl else landmark_detector self)).
Proof.
  intros rt self available sa sm ss sl Hort Hav providers file self'.
  split; [apply load_models_no_directory|].
  subst self' providers file. cbv beta.
  intros Hdir Ha Hm Hs Hl.
  loading_unfold. rewrite Hort, Hav. cbv beta iota.
  destruct (existsb (String.eqb "CUDAExecutionProvider") available);
    cbv beta iota; rewrite Hdir;
    (destruct (path_exists rt
                 ["checkpoints"; "liveportrait_onnx";
                  "appearance_feature_extractor.onnx"]);
     [rewrite (Ha eq_refl)|]);
    cbv beta iota;
    (destruct (path_exists rt
                 ["checkpoints"; "liveportrait_onnx"; "motion_extractor.onnx"]);
     [rewrite (Hm eq_refl)|]);
    cbv beta iota;
    (destruct (path_exists rt
                 ["checkpoints"; "liveportrait_onnx"; "stitching.onnx"]);
     [rewrite (Hs eq_refl)|]);
    cbv beta iota;
    (destruct (path_exists rt
                 ["checkpoints"; "liveportrait_onnx"; "landmark.onnx"]);
     [rewrite (Hl eq_refl)|]);
    cbv beta iota;
    repeat split; reflexivity.
Qed.

(** A runtime that cannot open a file that is not there: the landmark
    file is missing, the three others are opened. *)
Lemma load_models_slots_witness :
  let rt := {| ort_available := true;
               get_available_providers := Ok ["CPUExecutionProvider"];
               path_exists := path_exists partial_runtime;
               InferenceSession := fun p _ =>
                 if path_exists partial_runtime p
                 then Ok Fixtures.flaky else Raise CvError |} in
  let self' := snd (load_models rt Pipeline.init) in
  appearance_extractor self' = Some Fixtures.flaky
  /\ motion_extractor self' = Some Fixtures.flaky
  /\ stitching_module self' = Some Fixtures.flaky
  /\ landmark_detector self' = None.
Proof.
  intros rt.
  apply (proj2 (load_models_slots rt Pipeline.init ["CPUExecutionProvider"]
                  Fixtures.flaky Fixtures.flaky Fixtures.flaky Fixtures.flaky
                  eq_refl eq_refl));
    try reflexivity; discriminate.
Defined.

(** X5. When the stitching session cannot be created, the two extractors
    loaded before it stay loaded, the stitching slot and the landmark slot
    keep what they held (the landmark file is not even tried), and the
    pipeline is ready all the same. *)
Theorem load_models_partial :
  forall (rt : runtime) (self : LivePortraitPipeline)
         (available : list string) (sa sm : session) (e : exn),
    ort_available rt = true ->
    get_available_providers rt = Ok available ->
    let providers :=
      if existsb (String.eqb "CUDAExecutionProvider") available
      then ["CUDAExecutionProvider"; "CPUExecutionProvider"]
      else ["CPUExecutionProvider"] in
    let file name := ["checkpoints"; "liveportrait_onnx"; name] in
    path_exists rt ["checkpoints"; "liveportrait_onnx"] = true ->
    path_exists rt (file "appearance_feature_extractor.onnx") = true ->
    path_exists rt (file "motion_extractor.onnx") = true ->
    path_exists rt (file "stitching.onnx") = true ->
    InferenceSession rt (file "appearance_feature_extractor.onnx") providers
    = Ok sa ->
    InferenceSession rt (file "motion_extractor.onnx") providers = Ok sm ->
    InferenceSession rt (file "stitching.onnx") providers = Raise e ->
    let self' := snd (load_models rt self) in
    appearance_extractor self' = Some sa
    /\ motion_extractor self' = Some sm
    /\ stitching_module self' = stitching_module self
    /\ landmark_detector self' = landmark_detector self
    /\ is_ready self' = true.
Proof.
  intros rt self available sa sm e Hort Hav providers file.
  subst providers file. cbv beta.
  intros Hdir Hfa Hfm Hfs Ha Hm Hs.
  loading_unfold. rewrite Hort, Hav. cbv beta iota.
  destruct (existsb (String.eqb "CUDAExecutionProvider") available);
    cbv beta iota; rewrite Hdir, Hfa, Ha; cbv beta iota;
    rewrite Hfm, Hm; cbv beta iota; rewrite Hfs, Hs; cbv beta iota;
    repeat split; reflexivity.
Qed.

(** The runtime of the fixtures: the stitching session fails. *)
Lemma load_models_partial_witness :
  let self' := snd (load_models partial_runtime Pipeline.init) in
  appearance_extractor self' = Some Fixtures.flaky
  /\ motion_extractor self' = Some Fixtures.flaky
  /\ stitching_module self' = stitching_module Pipeline.init
  /\ landmark_detector self' = landmark_detector Pipeline.init
  /\ is_ready self' = true.
Proof.
  apply (load_models_partial partial_runtime Pipeline.init
           ["CUDAExecutionProvider"; "CPUExecutionProvider"]
           Fixtures.flaky Fixtures.flaky CvError); reflexivity.
Defined.

(* ================================================================= *)
(** ** Further properties: the reference *)

Section ReferenceMore.

Context {cv : Cv2}.

(** The attributes [set_reference] leaves alone. *)
Lemma set_reference_sessions (img : image) (self : LivePortraitPipeline) :
  let self' := snd (set_reference img self) in
  is_ready self' = is_ready self
  /\ device self' = device self
  /\ appearance_extractor self' = appearance_extractor self
  /\ motion_extractor self' = motion_extractor self
  /\ warping_module self' = warping_module self
  /\ stitching_module self' = stitching_module self
  /\ landmark_detector self' = landmark_detector self.
Proof.
  method_unfold. cbn.
  destruct (appearance_extractor self) as [ae|] eqn:Ha; cbn;
    [destruct (appearance_features ae img); cbn|];
    (destruct (motion_extractor self) as [me|] eqn:Hm; cbn;
     [destruct (extract me img); cbn|]);
    repeat split; rewrite ?Ha, ?Hm; reflexivity.
Qed.

End ReferenceMore.

(** X6. Setting the same reference twice is setting it once: the second call
    finds the same sessions and recomputes the same features.  The
    readiness flag, the device and the five session slots are never
    changed by [set_reference]. *)
Theorem set_reference_idempotent :
  forall (cv : Cv2) (img : image) (self : LivePortraitPipeline),
    let self' := snd (set_reference img self) in
    snd (set_reference img self') = self'
    /\ is_ready self' = is_ready self
    /\ device self' = device self
    /\ appearance_extractor self' = appearance_extractor self
    /\ motion_extractor self' = motion_extractor self
    /\ warping_module self' = warping_module self
    /\ stitching_module self' = stitching_module self
    /\ landmark_detector self' = landmark_detector self.
Proof.
  intros cv img self self'. split; [|apply set_reference_sessions].
  subst self'. method_unfold. cbn.
  destruct (appearance_extractor self) as [ae|] eqn:Ha; cbn;
    [destruct (appearance_features ae img) eqn:Hf; cbn|];
    (destruct (motion_extractor self) as [me|] eqn:Hm; cbn;
     [destruct (extract me img) eqn:He; cbn|]);
    rewrite ?Ha, ?Hm; cbn; rewrite ?Hf, ?He; cbn;
    rewrite ?Ha, ?Hm; cbn; rewrite ?Hf, ?He; cbn; reflexivity.
Qed.

(** X7. When every loaded extractor succeeds on the new image, nothing of an
    earlier reference is left: setting [a] and then [b] gives the state
    that setting [b] alone gives.  The cache then holds the first output
    of the appearance extractor and the first two outputs of the motion
    extractor, an output that is missing leaving [None]. *)
Theorem set_reference_last_wins :
  forall (cv : Cv2) (a b : image) (self : LivePortraitPipeline),
    (forall ae, appearance_extractor self = Some ae ->
                exists x, appearance_features ae b = Ok x) ->
    (forall me, motion_extractor self = Some me ->
                exists outs, extract me b = Ok outs) ->
    snd (set_reference b (snd (set_reference a self)))
    = snd (set_reference b self)
    /\ (forall ae x, appearance_extractor self = Some ae ->
                     appearance_features ae b = Ok x ->
                     generator_input (snd (set_reference b self)) = Some x)
    /\ (forall me outs, motion_extractor self = Some me ->
                        extract me b = Ok outs ->
                        source_kp (snd (set_reference b self))
                        = nth_error outs 0
                        /\ source_rotation (snd (set_reference b self))
                           = nth_error outs 1).
Proof.
  intros cv a b self Happ Hmot. split; [|split].
  - method_unfold. cbn.
    destruct (appearance_extractor self) as [ae|] eqn:Ha; cbn;
      [destruct (Happ ae eq_refl) as [x Hx];
       destruct (appearance_features ae a) eqn:Hfa; cbn|];
      (destruct (motion_extractor self) as [me|] eqn:Hm; cbn;
       [destruct (Hmot me eq_refl) as [outs Houts];
        destruct (extract me a) eqn:Hea; cbn|]);
      rewrite ?Ha, ?Hm; cbn; rewrite ?Hx, ?Houts; cbn;
      rewrite ?Ha, ?Hm; cbn; rewrite ?Hx, ?Houts; cbn; reflexivity.
  - intros ae x Ha Hx. method_unfold. cbn. rewrite Ha. cbn. rewrite Hx. cbn.
    destruct (motion_extractor self) as [me|]; cbn;
      [destruct (extract me b); cbn|]; reflexivity.
  - intros me outs Hm Houts. method_unfold. cbn.
    destruct (appearance_extractor self) as [ae|]; cbn;
      [destruct (appearance_features ae b); cbn|];
      rewrite Hm; cbn; rewrite Houts; cbn; split; reflexivity.
Qed.

(** Two references in a row on the fixture whose extractors succeed on the
    second image. *)
Lemma set_reference_last_wins_witness :
  snd (set_reference (cv := Run.cv) Run.img2
         (snd (set_reference (cv := Run.cv) Fixtures.dark
                 Fixtures.with_extractors)))
  = snd (set_reference (cv := Run.cv) Run.img2 Fixtures.with_extractors).
Proof.
  refine (proj1 (set_reference_last_wins Run.cv Fixtures.dark Run.img2
                   Fixtures.with_extractors _ _)).
  - intros ae Hae. cbn in Hae. injection Hae as <-.
    exists Fixtures.feat. lazy. reflexivity.
  - intros me Hme. cbn in Hme. injection Hme as <-.
    eexists. reflexivity.
Defined.

(* ================================================================= *)
(** ** Further properties: the parameters of [inference] *)

Section ParameterFacts.

Context {cv : Cv2}.

Lemma rotation_matrix_head2 (h w : Z) (v : json) :
  rotation_matrix h w (head2 v) = rotation_matrix h w v.
Proof.
  destruct v as [ | | | | | l | ]; try reflexivity.
  destruct l as [|pitch [|yaw rest]]; reflexivity.
Qed.

Lemma synthesize_same_motion (reference : image)
  (kv1 kv2 : list (string * json)) :
  same_motion kv1 kv2 ->
  synthesize reference (JObj kv1) = synthesize reference (JObj kv2).
Proof.
  intros (Hhead & Hmouth & Hleft & Hright).
  rewrite !synthesize_fields. unfold expression_effects.
  destruct (shape reference) as [h w].
  rewrite <- (rotation_matrix_head2 h w (field kv1 _ _)), Hhead,
    rotation_matrix_head2, Hmouth, Hleft, Hright.
  reflexivity.
Qed.

Lemma inference_same_synthesis (p q : json) (self : LivePortraitPipeline) :
  (forall reference, synthesize reference p = synthesize reference q) ->
  inference p self = inference q self.
Proof.
  intros H. rewrite (inference_eq p), (inference_eq q), !inference_result.
  destruct (Pipeline.reference_image self); [rewrite H|]; reflexivity.
Qed.

Lemma field_cons_other (kv : list (string * json)) (key k : string)
  (v d : json) :
  k <> key -> field ((key, v) :: kv) k d = field kv k d.
Proof.
  intros Hne. unfold field. cbn [dict_get].
  destruct (String.eqb_spec key k); [congruence | reflexivity].
Qed.

Lemma field_cons_default (kv : list (string * json)) (key : string)
  (d : json) :
  dict_get kv key = None -> field ((key, d) :: kv) key d = field kv key d.
Proof.
  intros Hnone. unfold field. cbn [dict_get].
  rewrite String.eqb_refl, Hnone. reflexivity.
Qed.

End ParameterFacts.

(** X8. [inference] depends on the pitch and the yaw (the first two entries of
    ["headRotation"]), on ["mouthOpen"], ["eyeBlinkLeft"] and
    ["eyeBlinkRight"], and on nothing else in the record: the roll, any
    further entry of the rotation and any other key are ignored. *)
Theorem inference_reads_four_parameters :
  forall (cv : Cv2) (self : LivePortraitPipeline)
         (kv1 kv2 : list (string * json)),
    same_motion kv1 kv2 ->
    inference (JObj kv1) self = inference (JObj kv2) self.
Proof.
  intros cv self kv1 kv2 Hsame. apply inference_same_synthesis.
  intros reference. apply synthesize_same_motion. exact Hsame.
Qed.

(** A roll, a fourth entry and a foreign key change nothing. *)
Lemma inference_reads_four_parameters_witness :
  inference (cv := Run.cv)
    (JObj [("headRotation", JList [JFloat 0.1; JFloat 0.2; JFloat 0.9;
                                   JStr "w"]);
           ("mood", JNull)])
    (Pipeline.set_reference_image (Some Run.img2) Run.ready)
  = inference (cv := Run.cv)
      (JObj [("headRotation", JList [JFloat 0.1; JFloat 0.2; JFloat 0])])
      (Pipeline.set_reference_image (Some Run.img2) Run.ready).
Proof.
  apply inference_reads_four_parameters. repeat split; reflexivity.
Defined.

(** X9. A parameter that is absent counts as its default: binding a missing
    key to [0] (to [[0, 0, 0]] for the head rotation) changes neither the
    result nor the state. *)
Theorem absent_parameter_is_default :
  forall (cv : Cv2) (self : LivePortraitPipeline)
         (kv : list (string * json)) (key : string) (d : json),
    In (key, d) motion_defaults ->
    dict_get kv key = None ->
    inference (JObj ((key, d) :: kv)) self = inference (JObj kv) self.
Proof.
  intros cv self kv key d Hin Hnone.
  apply inference_same_synthesis. intros reference.
  apply synthesize_same_motion. unfold same_motion.
  cbn in Hin.
  destruct Hin as [H | [H | [H | [H | [H | []]]]]]; injection H as <- <-;
    repeat split;
    first [ rewrite field_cons_default by exact Hnone; reflexivity
          | rewrite field_cons_other by discriminate; reflexivity ].
Qed.

(** The record without ["mouthOpen"] and the one that gives it as 0. *)
Lemma absent_parameter_is_default_witness :
  inference (cv := Run.cv)
    (JObj [("mouthOpen", JInt 0); ("eyeBlinkLeft", JFloat 0.8)])
    (Pipeline.set_reference_image (Some Run.img2) Run.ready)
  = inference (cv := Run.cv) (JObj [("eyeBlinkLeft", JFloat 0.8)])
      (Pipeline.set_reference_image (Some Run.img2) Run.ready).
Proof.
  apply absent_parameter_is_default.
  - right. left. reflexivity.
  - reflexivity.
Defined.

(** X10. With a reference set, malformed parameters make [inference] raise
    before OpenCV is called, whatever the other parameters are: parameters
    that are not a JSON object raise [AttributeError]; a head rotation
    with fewer than two entries raises [IndexError]; a head rotation that
    is null, a boolean or a number raises [TypeError]. *)
Theorem inference_rejects_malformed :
  forall (cv : Cv2) (self : LivePortraitPipeline) (reference : image),
    Pipeline.reference_image self = Some reference ->
    (forall p : json,
        (forall kv, p <> JObj kv) ->
        inference p self = (Raise AttributeError, self))
    /\ (forall (kv : list (string * json)) (l : list json),
           dict_get kv "headRotation" = Some (JList l) ->
           (List.length l < 2)%nat ->
           inference (JObj kv) self = (Raise IndexError, self))
    /\ (forall (kv : list (string * json)) (v : json),
           dict_get kv "headRotation" = Some v ->
           match v with
           | JNull | JBool _ | JInt _ | JFloat _ => True
           | _ => False
           end ->
           inference (JObj kv) self = (Raise TypeError, self)).
Proof.
  intros cv self reference Href.
  assert (Hinf : forall p, inference p self = (synthesize reference p, self)).
  { intros p. rewrite inference_eq, inference_result, Href. reflexivity. }
  split; [|split].
  - intros p Hp. rewrite Hinf. f_equal.
    destruct p as [ | | | | | | kv]; try reflexivity.
    exfalso. exact (Hp kv eq_refl).
  - intros kv l Hl Hlen. rewrite Hinf, synthesize_fields. f_equal.
    unfold field. rewrite Hl. destruct (shape reference) as [h w].
    destruct l as [|pitch [|yaw rest]]; [reflexivity | reflexivity |].
    cbn in Hlen. lia.
  - intros kv v Hv Hkind. rewrite Hinf, synthesize_fields. f_equal.
    unfold field. rewrite Hv. destruct (shape reference) as [h w].
    destruct v; try contradiction; reflexivity.
Qed.

(** A head rotation of one entry, and parameters that are a list. *)
Lemma inference_rejects_malformed_witness :
  let self := Pipeline.set_reference_image (Some Run.img2) Run.ready in
  inference (cv := Run.cv) (JList []) self = (Raise AttributeError, self)
  /\ inference (cv := Run.cv)
       (JObj [("headRotation", JList [JFloat 0.5])]) self
     = (Raise IndexError, self)
  /\ inference (cv := Run.cv) (JObj [("headRotation", JNull)]) self
     = (Raise TypeError, self).
Proof.
  intros self.
  pose proof (inference_rejects_malformed Run.cv self Run.img2 eq_refl)
    as (Hobj & Hshort & Hkind).
  split; [|split].
  - apply Hobj. intros kv. discriminate.
  - apply (Hshort _ [JFloat 0.5]); [reflexivity | cbn; lia].
  - apply (Hkind _ JNull); [reflexivity | exact I].
Defined.

(* ================================================================= *)
(** ** Further properties: the gateway *)

Section GatewayFacts.

Context {cv : Cv2} {codec : Server.Codec}.

Lemma on_text_object (kv : list (string * json)) (g : Server.globals) :
  Server.on_text (Ok (JObj kv)) g = (Life.object_replies g kv, None, g).
Proof.
  unfold Server.on_text, Life.object_replies, field. cbn [py_get].
  destruct (py_eq_str _ "motion").
  - destruct (on_motion_dict kv g) as (out & Hout & _).
    rewrite Hout. reflexivity.
  - destruct (py_eq_str _ "ping"); reflexivity.
Qed.

Lemma object_replies_length (kv : list (string * json))
  (g : Server.globals) :
  (List.length (Life.object_replies g kv) <= 1)%nat.
Proof.
  unfold Life.object_replies.
  destruct (py_eq_str _ "motion").
  - destruct (on_motion_dict kv g) as (out & Hout & r & -> & _).
    rewrite Hout. cbn. lia.
  - destruct (py_eq_str _ "ping"); cbn; lia.
Qed.

Lemma on_text_closes (loaded : res json) (g : Server.globals) :
  match Server.on_text loaded g with
  | (out, Some _, g') => not_an_object loaded = true /\ out = [] /\ g' = g
  | (out, None, g') => not_an_object loaded = false /\ g' = g
  end.
Proof.
  destruct loaded as [[ | b | z | f | s | l | kv] | e];
    try (cbn; repeat split; reflexivity).
  rewrite on_text_object. split; reflexivity.
Qed.

Lemma serve_globals (evs : list Server.event) (g : Server.globals) :
  snd (Server.serve evs g) = g.
Proof.
  induction evs as [|[loaded|] evs IH]; cbn [Server.serve]; try reflexivity.
  pose proof (on_text_closes loaded g) as H.
  destruct (Server.on_text loaded g) as [[out [e|]] g'].
  - destruct H as (_ & _ & ->). reflexivity.
  - destruct H as (_ & ->).
    destruct (Server.serve evs g) as [[out' st] g''] eqn:Hserve.
    cbn [snd] in *. exact IH.
Qed.

Lemma serve_stops (pre post : list Server.event) (ev : Server.event)
  (g : Server.globals) :
  closes ev = true ->
  Server.serve (pre ++ ev :: post) g = Server.serve (pre ++ [ev]) g
  /\ snd (fst (Server.serve (pre ++ ev :: post) g)) = Server.Closed.
Proof.
  intros Hcloses. revert g.
  induction pre as [|[loaded|] pre IH]; intros g; cbn [app Server.serve].
  - destruct ev as [loaded|]; [|split; reflexivity].
    cbn in Hcloses. pose proof (on_text_closes loaded g) as H.
    destruct (Server.on_text loaded g) as [[out [e|]] g'].
    + split; reflexivity.
    + destruct H as [H _]. congruence.
  - destruct (Server.on_text loaded g) as [[out [e|]] g'].
    + split; reflexivity.
    + destruct (IH g') as [-> Hclosed].
      destruct (Server.serve (pre ++ [ev]) g') as [[out' st] g''].
      split; [reflexivity | exact Hclosed].
  - split; reflexivity.
Qed.

Lemma set_discard_fresh (x : nat) (s : list nat) :
  ~ In x s -> Server.set_discard x s = s.
Proof.
  unfold Server.set_discard. induction s as [|y s IH]; intros Hx.
  - reflexivity.
  - cbn. destruct (Nat.eqb_spec x y) as [-> | Hne].
    + exfalso. apply Hx. left. reflexivity.
    + cbn. rewrite IH; [reflexivity|]. intros H. apply Hx. right. exact H.
Qed.

Lemma set_add_fresh (x : nat) (s : list nat) :
  ~ In x s -> Server.set_add x s = x :: s.
Proof.
  intros Hx. unfold Server.set_add.
  destruct (existsb (Nat.eqb x) s) eqn:Hex; [|reflexivity].
  apply existsb_exists in Hex. destruct Hex as (y & Hy & Heq).
  apply Nat.eqb_eq in Heq. subst y. contradiction.
Qed.

End GatewayFacts.

(** X11. On JSON objects the handler never ends by itself: whatever their
    number and their fields, it stays open, leaves the globals as they
    were and sends the replies of the messages in order, one for a
    [motion] or a [ping] message and none for any other type. *)
Theorem serve_objects :
  forall (cv : Cv2) (codec : Server.Codec) (g : Server.globals)
         (messages : list (list (string * json))),
    Server.serve (map (fun kv => Server.Text (Ok (JObj kv))) messages) g
    = (flat_map (Life.object_replies g) messages, Server.Open, g)
    /\ (List.length (flat_map (Life.object_replies g) messages)
        <= List.length messages)%nat
    /\ (forall kv,
           py_eq_str (field kv "type" JNull) "ping" = true ->
           Life.object_replies g kv = [Server.PongMsg])
    /\ (forall kv,
           py_eq_str (field kv "type" JNull) "motion" = false ->
           py_eq_str (field kv "type" JNull) "ping" = false ->
           Life.object_replies g kv = []).
Proof.
  intros cv codec g messages. split; [|split; [|split]].
  - induction messages as [|kv messages IH]; cbn [map Server.serve flat_map].
    + reflexivity.
    + rewrite on_text_object, IH. reflexivity.
  - induction messages as [|kv messages IH]; cbn [flat_map List.length].
    + lia.
    + rewrite length_app. pose proof (object_replies_length kv g). lia.
  - intros kv Hping. unfold Life.object_replies. rewrite Hping.
    destruct (py_eq_str (field kv "type" JNull) "motion") eqn:Hmotion;
      [|reflexivity].
    destruct (field kv "type" JNull); try discriminate.
    cbn in Hping, Hmotion.
    apply String.eqb_eq in Hping. apply String.eqb_eq in Hmotion.
    congruence.
  - intros kv Hmotion Hping. unfold Life.object_replies.
    rewrite Hmotion, Hping. reflexivity.
Qed.

(** A [ping] among other messages. *)
Lemma serve_objects_witness :
  Life.object_replies (cv := Run.cv) (codec := Run.codec) Fixtures.serving
    [("type", JStr "ping")] = [Server.PongMsg]
  /\ Life.object_replies (cv := Run.cv) (codec := Run.codec) Fixtures.serving
       [("type", JStr "pong")] = [].
Proof.
  pose proof (serve_objects Run.cv Run.codec Fixtures.serving [])
    as (_ & _ & Hping & Hother).
  split; [apply Hping | apply Hother]; reflexivity.
Defined.

(** X12. The loop ends at the first event that closes it, a disconnection or a
    payload that is not a JSON object: the events after it are not read
    and get no reply. *)
Theorem serve_stops_at_close :
  forall (cv : Cv2) (codec : Server.Codec) (g : Server.globals)
         (pre post : list Server.event) (ev : Server.event),
    closes ev = true ->
    Server.serve (pre ++ ev :: post) g = Server.serve (pre ++ [ev]) g
    /\ snd (fst (Server.serve (pre ++ ev :: post) g)) = Server.Closed.
Proof.
  intros cv codec g pre post ev Hcloses. apply serve_stops. exact Hcloses.
Qed.

(** A [ping] sent after the disconnection is not answered. *)
Lemma serve_stops_at_close_witness :
  Server.serve (cv := Run.cv) (codec := Run.codec)
    ([Server.Text (Ok (JObj [("type", JStr "ping")]))]
       ++ Server.Disconnect
       :: [Server.Text (Ok (JObj [("type", JStr "ping")]))])
    Fixtures.serving
  = Server.serve (cv := Run.cv) (codec := Run.codec)
      ([Server.Text (Ok (JObj [("type", JStr "ping")]))]
         ++ [Server.Disconnect])
      Fixtures.serving
  /\ snd (fst (Server.serve (cv := Run.cv) (codec := Run.codec)
                 ([Server.Text (Ok (JObj [("type", JStr "ping")]))]
                    ++ Server.Disconnect
                    :: [Server.Text (Ok (JObj [("type", JStr "ping")]))])
                 Fixtures.serving))
     = Server.Closed.
Proof.
  apply serve_stops_at_close. reflexivity.
Defined.

Lemma websocket_endpoint_globals {cv : Cv2} {codec : Server.Codec}
  (g : Server.globals) (websocket : nat) (evs : list Server.event) :
  Server.pipeline (snd (Server.websocket_endpoint websocket evs g))
  = Server.pipeline g
  /\ Server.reference_image (snd (Server.websocket_endpoint websocket evs g))
     = Server.reference_image g.
Proof.
  unfold Server.websocket_endpoint.
  pose proof (serve_globals evs
                (Server.set_connected_clients
                   (Server.set_add websocket (Server.connected_clients g)) g))
    as Hg.
  destruct (Server.serve evs _) as [[out st] g2]. cbn [snd] in Hg. subst g2.
  destruct st; split; reflexivity.
Qed.

(** X13. The registry of connections.  A handler changes nothing in the
    globals but the set of connected clients.  For a connection that was
    not registered before: while the handler is open the set is the old
    one with the connection added, and [/status] counts one client more;
    once the handler has ended the set is the old one again. *)
Theorem connection_registry :
  forall (cv : Cv2) (codec : Server.Codec) (g : Server.globals)
         (websocket : nat) (evs : list Server.event),
    let '(out, st, g') := Server.websocket_endpoint websocket evs g in
    Server.pipeline g' = Server.pipeline g
    /\ Server.reference_image g' = Server.reference_image g
    /\ (~ In websocket (Server.connected_clients g) ->
        match st with
        | Server.Open =>
            Server.connected_clients g'
            = websocket :: Server.connected_clients g
            /\ Server.n_connected_clients (Server.get_status g')
               = S (Server.n_connected_clients (Server.get_status g))
        | Server.Closed =>
            Server.connected_clients g' = Server.connected_clients g
        end).
Proof.
  intros cv codec g websocket evs. unfold Server.websocket_endpoint.
  pose proof (serve_globals evs
                (Server.set_connected_clients
                   (Server.set_add websocket (Server.connected_clients g)) g))
    as Hg.
  destruct (Server.serve evs _) as [[out st] g2]. cbn [snd] in Hg. subst g2.
  destruct st; cbn; (split; [reflexivity|]; split; [reflexivity|]);
    intros Hfresh; rewrite set_add_fresh by exact Hfresh.
  - split; reflexivity.
  - cbn. rewrite Nat.eqb_refl. cbn. apply set_discard_fresh. exact Hfresh.
Qed.

(** Connection 3 joins connections 1 and 2 and leaves again. *)
Lemma connection_registry_witness :
  let g := Server.set_connected_clients [1; 2]%nat Fixtures.serving in
  Server.connected_clients
    (snd (Server.websocket_endpoint (cv := Run.cv) (codec := Run.codec)
            3%nat [Server.Disconnect] g))
  = [1; 2]%nat.
Proof.
  intros g.
  pose proof (connection_registry Run.cv Run.codec g 3%nat
                [Server.Disconnect]) as H.
  cbn in H. destruct H as (_ & _ & H). apply H.
  intros [H1 | [H2 | []]]; discriminate.
Defined.

(* ================================================================= *)
(** ** Further properties: uploads and the life of the server *)

Section LifeFacts.

Context {cv : Cv2} {codec : Server.Codec}.

Lemma upload_decoded (contents : string) (img : image)
  (g : Server.globals) :
  Server.load_reference contents = Ok img ->
  fst (Server.upload_reference contents g)
  = Server.Http200 "success" "Reference image uploaded"
  /\ Server.reference_image (snd (Server.upload_reference contents g))
     = Some img
  /\ Server.connected_clients (snd (Server.upload_reference contents g))
     = Server.connected_clients g
  /\ (Server.pipeline_ready g = true ->
      coherent (snd (Server.upload_reference contents g)))
  /\ (Server.pipeline_ready g = false ->
      Server.pipeline (snd (Server.upload_reference contents g))
      = Server.pipeline g).
Proof.
  intros Hload. unfold Server.upload_reference, Server.pipeline_ready.
  rewrite Hload. cbn [Server.pipeline Server.set_reference_image].
  destruct (Server.pipeline g) as [p|] eqn:Hp.
  - destruct (is_ready p) eqn:Hready.
    + pose proof (set_reference_returns img p) as Hret.
      pose proof (set_reference_stores img p) as Hstored.
      pose proof (set_reference_is_ready img p) as Hready'.
      destruct (set_reference img p) as [r p']. cbn [fst snd] in *. subst r.
      cbn. repeat split; try discriminate.
      intros _. exists p'. cbn. repeat split; congruence.
    + cbn. rewrite Hp. repeat split; discriminate.
  - cbn. rewrite Hp. repeat split; discriminate.
Qed.

Lemma upload_keeps_coherent (contents : string) (g : Server.globals) :
  coherent g ->
  coherent (snd (Server.upload_reference contents g))
  /\ Server.reference_image (snd (Server.upload_reference contents g))
     = match Server.load_reference contents with
       | Ok img => Some img
       | Raise _ => Server.reference_image g
       end.
Proof.
  intros Hco.
  destruct (Server.load_reference contents) as [img | e] eqn:Hload.
  - destruct (upload_decoded contents img g Hload)
      as (_ & Href & _ & Hready & _).
    split; [|exact Href]. apply Hready.
    destruct Hco as (p & Hp & Hr & _).
    unfold Server.pipeline_ready. rewrite Hp. exact Hr.
  - unfold Server.upload_reference. rewrite Hload. split; [exact Hco|].
    reflexivity.
Qed.

Lemma startup_coherent (rt : runtime) :
  coherent (Life.startup rt Life.initial)
  /\ Server.reference_image (Life.startup rt Life.initial) = None.
Proof.
  unfold Life.startup.
  pose proof (load_models_returns rt Pipeline.init) as (Hret & Hready & Href).
  destruct (load_models rt Pipeline.init) as [r p]. cbn [fst snd] in *.
  subst r. split; [|reflexivity].
  exists p. cbn. repeat split; assumption.
Qed.

Lemma handle_keeps_coherent (r : Life.request) (g : Server.globals) :
  coherent g ->
  coherent (Life.handle g r)
  /\ Server.reference_image (Life.handle g r)
     = match r with
       | Life.Upload contents =>
           match Server.load_reference contents with
           | Ok img => Some img
           | Raise _ => Server.reference_image g
           end
       | _ => Server.reference_image g
       end.
Proof.
  intros Hco. destruct r as [contents | | websocket evs]; cbn [Life.handle].
  - apply upload_keeps_coherent. exact Hco.
  - split; [exact Hco | reflexivity].
  - destruct (websocket_endpoint_globals g websocket evs) as [Hp Hr].
    split; [|exact Hr].
    destruct Hco as (p & Hpipe & Hready & Href).
    exists p. repeat split; congruence.
Qed.

Lemma requests_keep_coherent (reqs : list Life.request)
  (g : Server.globals) :
  coherent g ->
  coherent (fold_left Life.handle reqs g)
  /\ Server.reference_image (fold_left Life.handle reqs g)
     = fold_left (fun acc r =>
                    match r with
                    | Life.Upload contents =>
                        match Server.load_reference contents with
                        | Ok img => Some img
                        | Raise _ => acc
                        end
                    | _ => acc
                    end) reqs (Server.reference_image g).
Proof.
  revert g. induction reqs as [|r reqs IH]; intros g Hco; cbn [fold_left].
  - split; [exact Hco | reflexivity].
  - destruct (handle_keeps_coherent r g Hco) as [Hco' Href].
    destruct (IH _ Hco') as [Hfinal Hlast]. split; [exact Hfinal|].
    rewrite Hlast, Href. reflexivity.
Qed.

Lemma on_motion_coherent (kv : list (string * json)) (g : Server.globals) :
  coherent g ->
  Server.on_motion (JObj kv) g
  = ([match Server.reference_image g with
      | None => Server.StatusMsg "Pipeline not ready or reference not loaded"
      | Some img =>
          Life.frame_reply (synthesize img (field kv "params" (JObj [])))
      end], None, g).
Proof.
  intros (p & Hp & Hready & Href).
  unfold Server.on_motion, Life.frame_reply, field. cbn [py_get].
  destruct g as [pl clients ref].
  cbn [Server.pipeline Server.reference_image] in Hp, Href |- *. subst pl.
  destruct ref as [img|]; [|reflexivity].
  rewrite Hready, inference_eq, inference_result, Href.
  cbn [bind Server.set_pipeline Server.pipeline Server.connected_clients
       Server.reference_image].
  destruct (synthesize img _) as [frame | e]; cbn [bind];
    [destruct (Server.encode_frame frame)|]; reflexivity.
Qed.

End LifeFacts.

(** X14. An upload that cannot be decoded is answered with 400 and changes
    nothing.  An upload that can be decoded is always answered with 200,
    it replaces the reference of the server, and it leaves the connected
    clients alone; with a ready pipeline the pipeline receives the same
    image, and without one the pipeline is not touched. *)
Theorem upload_reference_outcomes :
  forall (cv : Cv2) (codec : Server.Codec) (g : Server.globals)
         (contents : string),
    match Server.load_reference contents with
    | Raise e => Server.upload_reference contents g = (Server.Http400 e, g)
    | Ok img =>
        let g' := snd (Server.upload_reference contents g) in
        fst (Server.upload_reference contents g)
        = Server.Http200 "success" "Reference image uploaded"
        /\ Server.reference_image g' = Some img
        /\ Server.connected_clients g' = Server.connected_clients g
        /\ (Server.pipeline_ready g = true -> coherent g')
        /\ (Server.pipeline_ready g = false ->
            Server.pipeline g' = Server.pipeline g)
    end.
Proof.
  intros cv codec g contents.
  destruct (Server.load_reference contents) as [img | e] eqn:Hload.
  - apply upload_decoded. exact Hload.
  - unfold Server.upload_reference. rewrite Hload. reflexivity.
Qed.

(** An upload of two pixels to a ready pipeline, and one of no pixel. *)
Lemma upload_reference_outcomes_witness :
  coherent (snd (Server.upload_reference (cv := Run.cv) (codec := Run.codec)
                   "010020030040050060" Fixtures.serving))
  /\ Server.upload_reference (cv := Run.cv) (codec := Run.codec)
       "" Fixtures.serving
     = (Server.Http400 PILError, Fixtures.serving).
Proof.
  split.
  - pose proof (upload_reference_outcomes Run.cv Run.codec Fixtures.serving
                  "010020030040050060") as H.
    cbn [Server.load_reference Run.codec] in H.
    change (Run.load "010020030040050060") with (Ok Run.row2) in H.
    destruct H as (_ & _ & _ & H & _). apply H. reflexivity.
  - exact (upload_reference_outcomes Run.cv Run.codec Fixtures.serving "").
Defined.

(** X15. After [startup], through any sequence of uploads, status queries
    and WebSocket connections handled one after another: the pipeline is
    there and ready, and its reference is the one the server holds, which
    is the image of the last upload that could be decoded; [/status]
    reports the pipeline ready and the reference loaded accordingly.  So
    a [motion] message is answered with the [status] message as long as
    no upload has succeeded, and from then on with the frame computed
    from that image, or with the error of that computation; the
    pipeline's own reference check never fails. *)
Theorem server_reference_coherent :
  forall (cv : Cv2) (codec : Server.Codec) (rt : runtime)
         (reqs : list Life.request),
    let g := Life.after_requests rt reqs in
    coherent g
    /\ Server.reference_image g = last_reference reqs
    /\ Server.st_pipeline_ready (Server.get_status g) = true
    /\ Server.reference_loaded (Server.get_status g)
       = match last_reference reqs with Some _ => true | None => false end
    /\ (forall kv : list (string * json),
           Server.on_motion (JObj kv) g
           = ([match last_reference reqs with
               | None =>
                   Server.StatusMsg
                     "Pipeline not ready or reference not loaded"
               | Some img =>
                   Life.frame_reply
                     (synthesize img (field kv "params" (JObj [])))
               end], None, g)).
Proof.
  intros cv codec rt reqs g. subst g. unfold Life.after_requests.
  destruct (startup_coherent rt) as [Hstart Hnone].
  destruct (requests_keep_coherent reqs _ Hstart) as [Hco Href].
  rewrite Hnone in Href. fold (last_reference reqs) in Href.
  split; [exact Hco|]. split; [exact Href|].
  split; [|split].
  - destruct Hco as (p & Hp & Hready & _).
    unfold Server.get_status, Server.pipeline_ready.
    cbn [Server.st_pipeline_ready]. rewrite Hp. exact Hready.
  - unfold Server.get_status. cbn [Server.reference_loaded].
    rewrite Href. reflexivity.
  - intros kv. rewrite (on_motion_coherent kv _ Hco), Href. reflexivity.
Qed.

(* ================================================================= *)
(** ** Further properties: tensors and images *)

Section Layout.

Lemma flat_map_uniform_length {A B : Type} (f : A -> list B) (l : list A)
  (n : nat) :
  (forall a, In a l -> List.length (f a) = n) ->
  List.length (flat_map f l) = (List.length l * n)%nat.
Proof.
  induction l as [|a l IH]; intros Hlen; cbn [flat_map List.length].
  - reflexivity.
  - rewrite length_app, Hlen, IH.
    + cbn. reflexivity.
    + intros b Hb. apply Hlen. right. exact Hb.
    + left. reflexivity.
Qed.

Lemma nth_flat_map_uniform {A B : Type} (f : A -> list B) (l : list A)
  (n i j : nat) (d : B) (a0 : A) :
  (forall a, In a l -> List.length (f a) = n) ->
  (i < List.length l)%nat ->
  (j < n)%nat ->
  nth (i * n + j) (flat_map f l) d = nth j (f (nth i l a0)) d.
Proof.
  revert i. induction l as [|a l IH]; intros i Hlen Hi Hj.
  - cbn in Hi. lia.
  - cbn [flat_map]. destruct i as [|i].
    + cbn [Nat.mul Nat.add nth]. apply app_nth1.
      rewrite Hlen; [exact Hj | left; reflexivity].
    + rewrite app_nth2; rewrite (Hlen a) by (left; reflexivity);
        [|cbn; lia].
      replace (S i * n + j - n)%nat with (i * n + j)%nat by (cbn; lia).
      cbn [nth]. apply IH.
      * intros b Hb. apply Hlen. right. exact Hb.
      * cbn in Hi. lia.
      * exact Hj.
Qed.

Lemma index_bound (c h w k y x : nat) :
  (k < c)%nat -> (y < h)%nat -> (x < w)%nat ->
  (y * w + x < h * w)%nat /\ (k * (h * w) + (y * w + x) < c * (h * w))%nat.
Proof.
  intros Hk Hy Hx.
  assert (H1 : (S y * w <= h * w)%nat) by (apply Nat.mul_le_mono_r; lia).
  assert (H2 : (S k * (h * w) <= c * (h * w))%nat)
    by (apply Nat.mul_le_mono_r; lia).
  cbn [Nat.mul] in H1, H2. lia.
Qed.

Lemma map_nth_seq_id {A : Type} (l : list A) (d : A) :
  map (fun i => nth i l d) (seq 0 (List.length l)) = l.
Proof.
  induction l as [|a l IH]; cbn [List.length seq map nth].
  - reflexivity.
  - f_equal. rewrite <- seq_shift, map_map. exact IH.
Qed.

End Layout.

Section TensorFacts.

Context {cv : Cv2}.

Lemma valid_image_well_shaped (img : image) :
  valid_image img = true ->
  well_shaped img (List.length img) (List.length (hd [] img)) 3
  /\ (0 < List.length img)%nat /\ (0 < List.length (hd [] img))%nat.
Proof.
  unfold valid_image, shape. intros H.
  apply andb_prop in H. destruct H as [H Hrows].
  apply andb_prop in H. destruct H as [Hh Hw].
  apply Z.ltb_lt in Hh, Hw.
  split; [|lia]. split; [reflexivity|].
  intros row Hrow.
  pose proof (proj1 (forallb_forall _ _) Hrows row Hrow) as Hr.
  apply andb_prop in Hr. destruct Hr as [Hlen Hpxs].
  apply Z.eqb_eq in Hlen. split; [lia|].
  intros px Hpx.
  pose proof (proj1 (forallb_forall _ _) Hpxs px Hpx) as Hp.
  apply andb_prop in Hp. destruct Hp as [Hc Hch].
  apply Nat.eqb_eq in Hc. split; [exact Hc|].
  intros p Hin.
  pose proof (proj1 (forallb_forall _ _) Hch p Hin) as Hok.
  unfold channel_ok in Hok. apply andb_prop in Hok.
  destruct Hok as [H0 H255]. apply Z.leb_le in H0, H255. lia.
Qed.

Lemma well_shaped_channels (img : image) (h w c : nat) :
  well_shaped img h w c -> (0 < h)%nat -> (0 < w)%nat ->
  List.length (hd [] (hd [] img)) = c.
Proof.
  intros [Hh Hrows] Hpos Hwpos.
  destruct img as [|row img]; [cbn in Hh; lia|].
  destruct (Hrows row (or_introl eq_refl)) as [Hw Hpxs].
  destruct row as [|px row]; [cbn in Hw; lia|].
  exact (proj1 (Hpxs px (or_introl eq_refl))).
Qed.

Lemma row_plane_length (img : image) (h w c k : nat) :
  well_shaped img h w c ->
  List.length (flat_map (fun row => map (fun px => nth k px 0) row) img)
  = (h * w)%nat.
Proof.
  intros [Hh Hrows]. rewrite (flat_map_uniform_length _ _ w), Hh.
  - reflexivity.
  - intros row Hrow. rewrite length_map. exact (proj1 (Hrows row Hrow)).
Qed.

Lemma chw_length (img : image) (h w c : nat) :
  well_shaped img h w c -> (0 < h)%nat -> (0 < w)%nat ->
  List.length (chw img) = (c * (h * w))%nat.
Proof.
  intros Hwell Hh Hw. unfold chw.
  rewrite (well_shaped_channels img h w c Hwell Hh Hw).
  rewrite (flat_map_uniform_length _ _ (h * w)), length_seq.
  - reflexivity.
  - intros k _. apply (row_plane_length img h w c k Hwell).
Qed.

Lemma chw_nth (img : image) (h w c k y x : nat) :
  well_shaped img h w c ->
  (k < c)%nat -> (y < h)%nat -> (x < w)%nat ->
  nth (k * (h * w) + (y * w + x)) (chw img) 0
  = nth k (nth x (nth y img []) []) 0.
Proof.
  intros Hwell Hk Hy Hx. unfold chw.
  rewrite (well_shaped_channels img h w c Hwell) by lia.
  rewrite (nth_flat_map_uniform _ _ (h * w) k (y * w + x) 0 0%nat).
  - rewrite seq_nth by exact Hk. cbn [Nat.add].
    destruct Hwell as [Hh Hrows].
    rewrite (nth_flat_map_uniform _ _ w y x 0 []).
    + assert (Hrow : In (nth y img []) img) by (apply nth_In; lia).
      destruct (Hrows _ Hrow) as [Hw _].
      rewrite (nth_indep _ 0 (nth k [] 0))
        by (rewrite length_map; lia).
      apply (map_nth (fun px => nth k px 0)).
    + intros row Hrow. rewrite length_map. exact (proj1 (Hrows row Hrow)).
    + lia.
    + exact Hx.
  - intros k' _. apply (row_plane_length img h w c k' Hwell).
  - rewrite length_seq. exact Hk.
  - apply (index_bound c h w k y x); assumption.
Qed.

(** The 256 channel values through the normalisation and back. *)
Lemma denormalize_table :
  forallb (fun p => denormalize32 (normalize32 p) =? p) (Run.zrange 256)
  = true.
Proof. vm_compute. reflexivity. Qed.

Lemma unit32_table :
  forallb (fun p => unit32 (normalize32 p)) (Run.zrange 256) = true.
Proof. vm_compute. reflexivity. Qed.

Lemma in_zrange_256 (p : Z) : 0 <= p <= 255 -> In p (Run.zrange 256).
Proof.
  intros Hp. unfold Run.zrange. apply in_map_iff. exists (Z.to_nat p).
  split; [lia|]. apply in_seq. lia.
Qed.

Lemma denormalize_normalize (p : Z) :
  0 <= p <= 255 -> denormalize32 (normalize32 p) = p.
Proof.
  intros Hp. apply Z.eqb_eq.
  exact (proj1 (forallb_forall _ _) denormalize_table p (in_zrange_256 p Hp)).
Qed.

Lemma well_shaped_channel (img : image) (h w c k y x : nat) :
  well_shaped img h w c ->
  (k < c)%nat -> (y < h)%nat -> (x < w)%nat ->
  0 <= nth k (nth x (nth y img []) []) 0 <= 255.
Proof.
  intros [Hh Hrows] Hk Hy Hx.
  assert (Hrow : In (nth y img []) img) by (apply nth_In; lia).
  destruct (Hrows _ Hrow) as [Hw Hpxs].
  assert (Hpx : In (nth x (nth y img []) []) (nth y img []))
    by (apply nth_In; lia).
  destruct (Hpxs _ Hpx) as [Hc Hch].
  apply Hch. apply nth_In. lia.
Qed.

Lemma well_shaped_rebuild (img : image) (h w c : nat) :
  well_shaped img h w c ->
  map (fun y =>
         map (fun x =>
                map (fun k => nth k (nth x (nth y img []) []) 0) (seq 0 c))
             (seq 0 w))
      (seq 0 h)
  = img.
Proof.
  intros [Hh Hrows].
  transitivity (map (fun y => nth y img []) (seq 0 h));
    [|rewrite <- Hh; apply map_nth_seq_id].
  apply map_ext_in. intros y Hy. apply in_seq in Hy.
  assert (Hrow : In (nth y img []) img) by (apply nth_In; lia).
  destruct (Hrows _ Hrow) as [Hw Hpxs].
  transitivity (map (fun x => nth x (nth y img []) []) (seq 0 w));
    [|rewrite <- Hw; apply map_nth_seq_id].
  apply map_ext_in. intros x Hx. apply in_seq in Hx.
  assert (Hpx : In (nth x (nth y img []) []) (nth y img []))
    by (apply nth_In; lia).
  destruct (Hpxs _ Hpx) as [Hc _].
  rewrite <- Hc. apply map_nth_seq_id.
Qed.

(** Reading back the tensor of a well-shaped image gives the image. *)
Lemma postprocess_chw (img : image) (h w c : nat) :
  well_shaped img h w c -> (0 < h)%nat -> (0 < w)%nat ->
  _postprocess_image
    {| t_shape := [1; Z.of_nat c; Z.of_nat h; Z.of_nat w];
       t_data := map normalize32 (chw img) |}
  = Ok img.
Proof.
  intros Hwell Hh Hw. unfold _postprocess_image.
  cbn [t_shape t_data]. change (1 <=? 0) with false. cbv iota.
  rewrite <- !Nat2Z.inj_mul, !Nat2Z.id.
  rewrite firstn_all2
    by (rewrite length_map, (chw_length img h w c Hwell Hh Hw); lia).
  apply (f_equal Ok).
  etransitivity; [|exact (well_shaped_rebuild img h w c Hwell)].
  apply map_ext_in. intros y Hy. apply in_seq in Hy.
  apply map_ext_in. intros x Hx. apply in_seq in Hx.
  apply map_ext_in. intros k Hk. apply in_seq in Hk.
  rewrite (nth_indep _ S754_nan (normalize32 0))
    by (rewrite length_map, (chw_length img h w c Hwell Hh Hw);
        apply index_bound; lia).
  rewrite (map_nth normalize32), (chw_nth img h w c) by (assumption || lia).
  apply denormalize_normalize.
  apply (well_shaped_channel img h w c); (assumption || lia).
Qed.

Lemma preprocess_canonical (img img' : image) :
  canonical img = Ok img' ->
  _preprocess_image img
  = Ok {| t_shape := [1; Z.of_nat (List.length (hd [] (hd [] img')));
                      fst (shape img'); snd (shape img')];
          t_data := map normalize32 (chw img') |}.
Proof.
  unfold canonical, _preprocess_image. intros ->. cbn [bind].
  destruct (shape img') as [h w]. reflexivity.
Qed.

End TensorFacts.

Section TensorRange.

Context {cv : Cv2}.

Lemma chw_in_range (img : image) (h w c : nat) (p : Z) :
  well_shaped img h w c -> (0 < h)%nat -> (0 < w)%nat ->
  In p (chw img) -> 0 <= p <= 255.
Proof.
  intros Hwell Hh Hw Hin. unfold chw in Hin.
  rewrite (well_shaped_channels img h w c Hwell Hh Hw) in Hin.
  apply in_flat_map in Hin. destruct Hin as (k & Hk & Hin).
  apply in_seq in Hk.
  apply in_flat_map in Hin. destruct Hin as (row & Hrow & Hin).
  apply in_map_iff in Hin. destruct Hin as (px & <- & Hpx).
  destruct Hwell as [_ Hrows].
  destruct (Hrows row Hrow) as [_ Hpxs].
  destruct (Hpxs px Hpx) as [Hc Hch].
  apply Hch. apply nth_In. lia.
Qed.

End TensorRange.

(** X16. [_postprocess_image] undoes [_preprocess_image]: on a valid image,
    taken as it is when it is 256 x 256 and as [cv2.resize] returns it
    otherwise, normalising to float32 and reading the tensor back gives
    that image again, channel by channel. *)
Theorem image_round_trip :
  forall (cv : Cv2) (img img' : image),
    canonical img = Ok img' ->
    valid_image img' = true ->
    (t <- _preprocess_image img ;; _postprocess_image t) = Ok img'.
Proof.
  intros cv img img' Hcan Hvalid.
  rewrite (preprocess_canonical img img' Hcan). cbn [bind].
  destruct (valid_image_well_shaped img' Hvalid) as (Hwell & Hh & Hw).
  rewrite (well_shaped_channels img' _ _ 3 Hwell Hh Hw).
  unfold shape. cbn [fst snd].
  apply (postprocess_chw img' _ _ 3 Hwell Hh Hw).
Qed.

(** A 256 x 256 image of one colour. *)
Lemma image_round_trip_witness :
  (t <- _preprocess_image (cv := Run.cv) (flat256 [10; 20; 30]) ;;
   _postprocess_image t)
  = Ok (flat256 [10; 20; 30]).
Proof.
  apply image_round_trip; vm_compute; reflexivity.
Defined.

(** X17. What [_preprocess_image] returns.  A 256 x 256 image is never handed
    to [cv2.resize]; an exception of [cv2.resize] is the exception of
    [_preprocess_image].  On a valid image the tensor has the shape
    [1, 3, h, w], as many elements as the shape says, and every element
    is a float32 between 0 and 1. *)
Theorem preprocess_tensor :
  forall (cv : Cv2) (img : image),
    (shape img = (256, 256) -> canonical img = Ok img)
    /\ (forall e, canonical img = Raise e -> _preprocess_image img = Raise e)
    /\ (forall img',
           canonical img = Ok img' ->
           valid_image img' = true ->
           exists t,
             _preprocess_image img = Ok t
             /\ t_shape t = [1; 3; fst (shape img'); snd (shape img')]
             /\ Z.of_nat (List.length (t_data t))
                = 3 * fst (shape img') * snd (shape img')
             /\ forallb unit32 (t_data t) = true).
Proof.
  intros cv img. split; [|split].
  - intros Hshape. unfold canonical. rewrite Hshape. reflexivity.
  - intros e He. unfold _preprocess_image. fold (canonical img).
    rewrite He. reflexivity.
  - intros img' Hcan Hvalid.
    destruct (valid_image_well_shaped img' Hvalid) as (Hwell & Hh & Hw).
    eexists. split; [apply (preprocess_canonical img img' Hcan)|].
    cbn [t_shape t_data].
    rewrite (well_shaped_channels img' _ _ 3 Hwell Hh Hw).
    split; [reflexivity|]. split.
    + rewrite length_map, (chw_length img' _ _ 3 Hwell Hh Hw).
      unfold shape. cbn [fst snd]. lia.
    + apply forallb_forall. intros x Hx.
      apply in_map_iff in Hx. destruct Hx as (p & <- & Hp).
      apply (proj1 (forallb_forall _ _) unit32_table).
      apply in_zrange_256.
      apply (chw_in_range img' _ _ 3 p Hwell Hh Hw Hp).
Qed.

(** The tensor of the 256 x 256 image of one colour. *)
Lemma preprocess_tensor_witness :
  exists t,
    _preprocess_image (cv := Run.cv) (flat256 [10; 20; 30]) = Ok t
    /\ t_shape t = [1; 3; 256; 256]
    /\ Z.of_nat (List.length (t_data t)) = 3 * 256 * 256
    /\ forallb unit32 (t_data t) = true.
Proof.
  pose proof (preprocess_tensor Run.cv (flat256 [10; 20; 30]))
    as (Hsame & _ & Htensor).
  destruct (Htensor (flat256 [10; 20; 30])) as (t & Ht & Hshape & Hlen & Hu).
  - apply Hsame. vm_compute. reflexivity.
  - vm_compute. reflexivity.
  - exists t. repeat split; assumption.
Defined.
